(** * The OOCSI client of oocsi.py: protocol engine

    A shallow embedding of the class [OOCSI] of [oocsi.py] (connection
    set-up, the receive step [check]/[asyncCheck], the dispatcher
    [receive], the three registries and the call mechanism), followed by
    the properties of the dispatcher that the specification states.

    Layout: Python values and dictionaries, string helpers, the client
    object and its monad, the methods in source order, runs of a client, a
    concrete host for examples, the vocabulary of the properties, then the
    lemmas. *)

From Stdlib Require Import ZArith String Ascii List Lia Bool.
From stdpp Require Import base option gmap strings list fin_maps pretty.

Local Open Scope string_scope.
Local Open Scope Z_scope.
#[local] Set Warnings "-register-all".

(** ** Python values *)

Module Py.

(** What [json.loads] can produce.  A float is kept as its literal: the
    client never looks inside one. *)
Inductive value : Type :=
  | JNull
  | JBool (b : bool)
  | JInt (n : Z)
  | JFloat (lit : string)
  | JStr (s : string)
  | JArr (items : list value)
  | JObj (fields : list (string * value)).

(** A [dict] with string keys.  Python dictionaries keep insertion order,
    and [json.dumps] shows it, so the model is an association list in which
    every key occurs at most once. *)
Definition dict : Type := list (string * value).

Fixpoint dict_get (k : string) (d : dict) : option value :=
  match d with
  | [] => None
  | (k', v) :: rest => if String.eqb k k' then Some v else dict_get k rest
  end.

(** [k in d] *)
Definition dict_has (k : string) (d : dict) : bool :=
  match dict_get k d with Some _ => true | None => false end.

(** The dictionary after [del d[k]] (callers check [dict_has] first). *)
Fixpoint dict_remove (k : string) (d : dict) : dict :=
  match d with
  | [] => []
  | (k', v) :: rest =>
      if String.eqb k k' then rest else (k', v) :: dict_remove k rest
  end.

(** [d[k] = v]: an existing key keeps its position, a new one goes last. *)
Fixpoint dict_set (k : string) (v : value) (d : dict) : dict :=
  match d with
  | [] => [(k, v)]
  | (k', v') :: rest =>
      if String.eqb k k' then (k, v) :: rest else (k', v') :: dict_set k v rest
  end.

(** The exceptions the client can meet.  [UserError] stands for whatever a
    user callback raises. *)
Inductive exn : Type :=
  | KeyError (key : value)
  | TypeError (what : string)
  | AttributeError (what : string)
  | ValueError (what : string)
  | NameError (what : string)
  | OSError (errno : Z)
  | UnicodeError
  | UserError (tag : string).

(** Result of a Python expression: a value or a raised exception. *)
Inductive res (A : Type) : Type :=
  | Ok (a : A)
  | Raised (e : exn).
Arguments Ok {A} a.
Arguments Raised {A} e.

(** A value used as a dictionary key, as in [v in self.services] or
    [self.calls[v]].  Lists and dictionaries are unhashable; the registries
    have string keys only, so a hashable value that is not a string finds
    nothing. *)
Definition as_key (v : value) : res (option string) :=
  match v with
  | JStr s => Ok (Some s)
  | JArr _ => Raised (TypeError "unhashable type: 'list'")
  | JObj _ => Raised (TypeError "unhashable type: 'dict'")
  | _ => Ok None
  end.

(** *** Strings *)

Definition newline : ascii := ascii_of_nat 10.

(** [s.startswith(p)] *)
Definition startswith (p s : string) : bool := String.prefix p s.

(** [s.split(sep)] for a one-character separator: never the empty list. *)
Fixpoint str_split (sep : ascii) (s : string) : list string :=
  match s with
  | EmptyString => [EmptyString]
  | String c rest =>
      if Ascii.eqb c sep then EmptyString :: str_split sep rest
      else match str_split sep rest with
           | piece :: pieces => String c piece :: pieces
           | [] => [String c EmptyString]
           end
  end.

(** White space as [str.strip] of CircuitPython sees it. *)
Definition is_space (c : ascii) : bool :=
  let n := nat_of_ascii c in
  (Nat.eqb n 32 || (Nat.leb 9 n && Nat.leb n 13))%bool.

Fixpoint lstrip (s : string) : string :=
  match s with
  | String c rest => if is_space c then lstrip rest else s
  | EmptyString => EmptyString
  end.

Fixpoint string_rev (s : string) : string :=
  match s with
  | EmptyString => EmptyString
  | String c rest => String.append (string_rev rest) (String c EmptyString)
  end.

Definition strip (s : string) : string :=
  string_rev (lstrip (string_rev (lstrip s))).

(** [c in s] for a character [c] *)
Fixpoint contains (c : ascii) (s : string) : bool :=
  match s with
  | EmptyString => false
  | String c' rest => (Ascii.eqb c c' || contains c rest)%bool
  end.

(** [s.count(c)] for a character [c] *)
Fixpoint count_char (c : ascii) (s : string) : nat :=
  match s with
  | EmptyString => 0%nat
  | String c' rest => ((if Ascii.eqb c c' then 1 else 0) + count_char c rest)%nat
  end.

(** [s.replace(c, by, 1)]: the first occurrence only. *)
Fixpoint replace_first (c : ascii) (by_ : string) (s : string) : string :=
  match s with
  | EmptyString => EmptyString
  | String c' rest =>
      if Ascii.eqb c c' then String.append by_ rest
      else String c' (replace_first c by_ rest)
  end.

(** [str(d)] for a digit [d < 10] *)
Definition str_of_digit (d : nat) : string :=
  String (ascii_of_nat (48 + d)) EmptyString.

(** One lower-case hexadecimal digit. *)
Definition hex_digit (n : Z) : ascii :=
  if n <? 10 then ascii_of_nat (48 + Z.to_nat n)
  else ascii_of_nat (87 + Z.to_nat n).

(** [f'{byte:02x}'] for [0 <= byte < 256] *)
Definition hex2 (byte : Z) : string :=
  String (hex_digit (Z.shiftr byte 4))
         (String (hex_digit (Z.land byte 15)) EmptyString).

(** [sep.join(parts)] *)
Fixpoint join (sep : string) (parts : list string) : string :=
  match parts with
  | [] => EmptyString
  | [p] => p
  | p :: rest => String.append p (String.append sep (join sep rest))
  end.

(** [s[a:b]] for [a <= b <= len(s)] *)
Definition slice (a b : nat) (s : string) : string :=
  String.substring a (b - a) s.

End Py.
Export Py.

(** ** The client object and its surroundings *)

(** A Python function object, known by its identity; a [callback] slot
    holds one or [None]. *)
Definition fn : Type := nat.
Definition callback : Type := option fn.

(** What a user function does when the client calls it: it returns, having
    possibly changed the event dictionary it was handed (the dictionary is
    passed by reference), or it raises.  User functions are taken not to
    touch the client object itself. *)
Inductive cb_outcome : Type :=
  | CbReturn (event : dict) (result : value)
  | CbRaise (e : exn).

(** The Python libraries and the user code around the client: [json],
    [str()] as applied by [format] to something that is not a string,
    [str(e)] of an exception, and the behaviour of the registered
    functions when called with three arguments (a subscriber) or with one
    (a responder). *)
Record host : Type := Host {
  json_loads : string -> option dict;
  json_dumps : dict -> string;
  py_str : value -> string;
  exn_str : exn -> string;
  run_subscriber : fn -> value -> value -> dict -> cb_outcome;
  run_responder : fn -> dict -> cb_outcome
}.

(** One call of a user function, with the arguments it received. *)
Inductive invocation : Type :=
  | CallSubscriber (f : fn) (sender recipient : value) (event : dict)
  | CallResponder (f : fn) (event : dict).

(** The Transport.  [sock_faults] says, for the coming writes in turn,
    whether the peer makes the write fail; [sock_writes] records every
    [sendall] with the data and whether it went through. *)
Record socket : Type := Socket {
  sock_closed : bool;
  sock_faults : list bool;
  sock_writes : list (string * bool)
}.

(** What one [recv_into] followed by [decode('utf-8')] yields on an open
    socket: text (empty when the peer closed), bytes that do not decode,
    or an [OSError] (11 is EAGAIN: nothing to read now). *)
Inductive recv_result : Type :=
  | RecvText (data : string)
  | RecvBadBytes
  | RecvError (errno : Z).

(** The dictionary [call] stores in [self.calls] and returns: the keys
    ['_MESSAGE_HANDLE'], ['_MESSAGE_ID'], ['expiration'], ['response'];
    [None] is an absent key. *)
Record pending : Type := Pending {
  p_handle : string;
  p_id : option string;
  p_expiration : option Z;
  p_response : option dict
}.

(** The object [self].  The records of [self.calls] live in [heap], since
    the caller of [call] holds the same object; [console] is what [print]
    wrote, [invoked] the calls of user functions so far. *)
Record client : Type := Client {
  handle : string;
  receivers : gmap string (option (list callback));
  calls : gmap string nat;
  services : gmap string callback;
  reconnect : bool;
  connected : bool;
  sock : socket;
  heap : gmap nat pending;
  console : list string;
  invoked : list invocation
}.

Definition with_receivers (v : gmap string (option (list callback))) (s : client) : client :=
  Client (handle s) v (calls s) (services s) (reconnect s) (connected s)
         (sock s) (heap s) (console s) (invoked s).
Definition with_calls (v : gmap string nat) (s : client) : client :=
  Client (handle s) (receivers s) v (services s) (reconnect s) (connected s)
         (sock s) (heap s) (console s) (invoked s).
Definition with_services (v : gmap string callback) (s : client) : client :=
  Client (handle s) (receivers s) (calls s) v (reconnect s) (connected s)
         (sock s) (heap s) (console s) (invoked s).
Definition with_reconnect (v : bool) (s : client) : client :=
  Client (handle s) (receivers s) (calls s) (services s) v (connected s)
         (sock s) (heap s) (console s) (invoked s).
Definition with_connected (v : bool) (s : client) : client :=
  Client (handle s) (receivers s) (calls s) (services s) (reconnect s) v
         (sock s) (heap s) (console s) (invoked s).
Definition with_sock (v : socket) (s : client) : client :=
  Client (handle s) (receivers s) (calls s) (services s) (reconnect s)
         (connected s) v (heap s) (console s) (invoked s).
Definition with_heap (v : gmap nat pending) (s : client) : client :=
  Client (handle s) (receivers s) (calls s) (services s) (reconnect s)
         (connected s) (sock s) v (console s) (invoked s).
Definition with_console (v : list string) (s : client) : client :=
  Client (handle s) (receivers s) (calls s) (services s) (reconnect s)
         (connected s) (sock s) (heap s) v (invoked s).
Definition with_invoked (v : list invocation) (s : client) : client :=
  Client (handle s) (receivers s) (calls s) (services s) (reconnect s)
         (connected s) (sock s) (heap s) (console s) v.

(** ** The monad of methods: state of [self], and exceptions

    A raised exception keeps the state reached so far, as in Python. *)
Definition M (A : Type) : Type := client -> res A * client.

Definition ret {A} (a : A) : M A := fun s => (Ok a, s).
Definition raise {A} (e : exn) : M A := fun s => (Raised e, s).
Definition bind {A B} (m : M A) (k : A -> M B) : M B :=
  fun s => match m s with
           | (Ok a, s') => k a s'
           | (Raised e, s') => (Raised e, s')
           end.
Definition get : M client := fun s => (Ok s, s).
Definition modify (f : client -> client) : M unit := fun s => (Ok tt, f s).
Definition lift {A} (r : res A) : M A := fun s => (r, s).

(** [try: m  except: pass] *)
Definition try_pass {A} (m : M A) : M unit :=
  fun s => (Ok tt, snd (m s)).

(** [try: x = m  except: pass], which leaves [x] unbound ([None]) when
    [m] raises *)
Definition attempt {A} (m : M A) : M (option A) :=
  fun s => match m s with
           | (Ok a, s') => (Ok (Some a), s')
           | (Raised _, s') => (Ok None, s')
           end.

Notation "x <- c ;; k" := (bind c (fun x => k))
  (at level 100, c at next level, right associativity).
Notation "c ;; k" := (bind c (fun _ => k))
  (at level 100, right associativity).

(** [for x in xs: body(x)] *)
Fixpoint for_each {A} (body : A -> M unit) (xs : list A) : M unit :=
  match xs with
  | [] => ret tt
  | x :: rest => body x ;; for_each body rest
  end.

(** The state a method leaves, and the state with its outcome. *)
Definition exec {A} (m : M A) (s : client) : client := snd (m s).
Definition outcome {A} (m : M A) (s : client) : res A := fst (m s).

(** ** The methods of [OOCSI] *)

Section Methods.
Context (H : host).

(** [d[k]], raising [KeyError] *)
Definition getitem (k : string) (d : dict) : M value :=
  match dict_get k d with
  | Some v => ret v
  | None => raise (KeyError (JStr k))
  end.

(** [del d[k]], raising [KeyError]; returns the dictionary as it is then *)
Definition delitem (k : string) (d : dict) : M dict :=
  if dict_has k d then ret (dict_remove k d) else raise (KeyError (JStr k)).

(** *** Transport *)

(** [sock.sendall(data)]: the socket afterwards, and whether the write
    went through ([false]: it raised). *)
Definition sendall (data : string) (sk : socket) : bool * socket :=
  if sock_closed sk then
    (false, Socket true (sock_faults sk) (sock_writes sk ++ [(data, false)]))
  else
    match sock_faults sk with
    | true :: later => (false, Socket false later (sock_writes sk ++ [(data, false)]))
    | false :: later => (true, Socket false later (sock_writes sk ++ [(data, true)]))
    | [] => (true, Socket false [] (sock_writes sk ++ [(data, true)]))
    end.

(** [self.sock.close()] *)
Definition sock_close : M unit :=
  modify (fun s => with_sock (Socket true (sock_faults (sock s)) (sock_writes (sock s))) s).

(** [recv_into] and [decode]: a closed socket refuses the read. *)
Definition sock_recv (r : recv_result) : M string :=
  s <- get ;;
  if sock_closed (sock s) then raise (OSError 9)
  else match r with
       | RecvText data => ret data
       | RecvBadBytes => raise UnicodeError
       | RecvError errno => raise (OSError errno)
       end.

(** *** [log] and [internalSend] *)

Definition log (message : string) : M unit :=
  modify (fun s =>
    with_console (console s ++ ["[" ++ handle s ++ "]: " ++ message]) s).

Definition internalSend (msg : string) : M unit :=
  fun s =>
    match sendall (msg ++ String newline EmptyString) (sock s) with
    | (true, sk) => (Ok tt, with_sock sk s)
    | (false, sk) => (Ok tt, with_connected false (with_sock sk s))
    end.

(** ['{0}'.format(v)] *)
Definition format_arg (v : value) : string :=
  match v with
  | JStr s => s
  | _ => py_str H v
  end.

(** *** [send] *)
Definition send (channelName : value) (data : dict) : M unit :=
  internalSend ("sendraw " ++ format_arg channelName ++ " " ++ json_dumps H data).

(** *** [receiveChannelEvent]

    The event dictionary is one object handed to every callback in turn, so
    each one sees what the ones before left in it; the method gives back
    the dictionary as it is at the end. *)

Definition not_callable : exn := TypeError "'NoneType' object is not callable".

Definition call_subscriber (x : callback) (sender recipient : value) (event : dict) : M dict :=
  match x with
  | None => raise not_callable
  | Some f =>
      modify (fun s => with_invoked (invoked s ++ [CallSubscriber f sender recipient event]) s) ;;
      match run_subscriber H f sender recipient event with
      | CbReturn event' _ => ret event'
      | CbRaise e => raise e
      end
  end.

Fixpoint call_subscribers (xs : list callback) (sender recipient : value) (event : dict) : M dict :=
  match xs with
  | [] => ret event
  | x :: rest =>
      event' <- call_subscriber x sender recipient event ;;
      call_subscribers rest sender recipient event'
  end.

Definition receiveChannelEvent (sender recipient : value) (event : dict) : M dict :=
  k <- lift (as_key recipient) ;;
  s <- get ;;
  match k with
  | Some channel =>
      match receivers s !! channel with
      | Some (Some xs) => call_subscribers xs sender recipient event
      | Some None => ret event
      | None => ret event
      end
  | None => ret event
  end.

(** *** [receive] *)

(** ['_MESSAGE_HANDLE' in event and event['_MESSAGE_HANDLE'] in
    self.services], with the entry [self.services[...]] when it holds. *)
Definition service_entry (registry : gmap string callback) (event : dict)
    : res (option callback) :=
  match dict_get "_MESSAGE_HANDLE" event with
  | None => Ok None
  | Some h =>
      match as_key h with
      | Ok (Some name) => Ok (registry !! name)
      | Ok None => Ok None
      | Raised e => Raised e
      end
  end.

Definition find_service (event : dict) : M (option callback) :=
  s <- get ;;
  lift (service_entry (services s) event).

Definition call_responder (service : callback) (event : dict) : M dict :=
  match service with
  | None => raise not_callable
  | Some f =>
      modify (fun s => with_invoked (invoked s ++ [CallResponder f event]) s) ;;
      match run_responder H f event with
      | CbReturn event' _ => ret event'
      | CbRaise e => raise e
      end
  end.

(** [self.calls[v]]: the record object it names *)
Definition lookup_call (v : value) : M nat :=
  k <- lift (as_key v) ;;
  s <- get ;;
  match k with
  | Some id =>
      match calls s !! id with
      | Some l => ret l
      | None => raise (KeyError v)
      end
  | None => raise (KeyError v)
  end.

(** The record at [l].  Every entry of [self.calls] was allocated by
    [call], so the error case is not met. *)
Definition deref (l : nat) : M pending :=
  s <- get ;;
  match heap s !! l with
  | Some p => ret p
  | None => raise (NameError "dangling record")
  end.

Definition store (l : nat) (p : pending) : M unit :=
  modify (fun s => with_heap (<[l := p]> (heap s)) s).

(** The event once [receive] has cleaned it up. *)
Definition cleaned (event : dict) : dict :=
  let event := dict_remove "recipient" event in
  let event := dict_remove "sender" event in
  let event := dict_remove "timestamp" event in
  if dict_has "data" event then dict_remove "data" event else event.

(** The branch for a response to one of our calls:
    [if '_MESSAGE_ID' in event: ...].  [now] is what [time.time()] gives,
    on CircuitPython a whole number of seconds. *)
Definition receive_response (now : Z) (event : dict) : M unit :=
  id <- getitem "_MESSAGE_ID" event ;;
  l <- lookup_call id ;;
  myCall <- deref l ;;
  match p_expiration myCall with
  | None => raise (KeyError (JStr "expiration"))
  | Some expiration =>
      if expiration >? now then
        (* response = self.calls[...]: the same object; response['response'] = event *)
        store l (Pending (p_handle myCall) (p_id myCall) (Some expiration) (Some event)) ;;
        (* del response['expiration'] *)
        store l (Pending (p_handle myCall) (p_id myCall) None (Some event)) ;;
        (* del response['_MESSAGE_ID'] *)
        match p_id myCall with
        | None => raise (KeyError (JStr "_MESSAGE_ID"))
        | Some _ =>
            store l (Pending (p_handle myCall) None None (Some event)) ;;
            (* del response['response']['_MESSAGE_ID']: the event itself *)
            event <- delitem "_MESSAGE_ID" event ;;
            store l (Pending (p_handle myCall) None None (Some event))
        end
      else
        (* del self.calls[event['_MESSAGE_ID']] *)
        k <- lift (as_key id) ;;
        match k with
        | Some key => modify (fun s => with_calls (delete key (calls s)) s)
        | None => raise (KeyError id)
        end
  end.

(** The part of [receive] after the clean-up: the three-way dispatch. *)
Definition dispatch (now : Z) (sender recipient : value) (event : dict) : M unit :=
  svc <- find_service event ;;
  match svc with
  | Some service =>
      event <- delitem "_MESSAGE_HANDLE" event ;;
      event <- call_responder service event ;;
      send sender event ;;
      receiveChannelEvent sender recipient event ;;
      ret tt
  | None =>
      if dict_has "_MESSAGE_ID" event then receive_response now event
      else
        receiveChannelEvent sender recipient event ;;
        ret tt
  end.

Definition receive (now : Z) (event : dict) : M unit :=
  sender <- getitem "sender" event ;;
  recipient <- getitem "recipient" event ;;
  (* clean up the event data *)
  event <- delitem "recipient" event ;;
  event <- delitem "sender" event ;;
  event <- delitem "timestamp" event ;;
  let event := if dict_has "data" event then dict_remove "data" event else event in
  dispatch now sender recipient event.

(** *** [check] and [asyncCheck] *)

Definition loads (line : string) : M dict :=
  match json_loads H line with
  | Some event => ret event
  | None => raise (ValueError "syntax error in JSON")
  end.

Definition is_keep_alive (line : string) : bool :=
  (startswith "ping" line || startswith "." line)%bool.

(** The body of the loop of [check]. *)
Definition check_line (now : Z) (data line : string) : M unit :=
  if Nat.eqb (String.length data) 0 then
    sock_close ;;
    modify (with_connected false)
  else if is_keep_alive line then
    internalSend "."
  else if startswith "{" line then
    event <- loads line ;;
    receive now event
  else ret tt.

Definition check (now : Z) (r : recv_result) : M unit :=
  try_pass (
    data <- sock_recv r ;;
    for_each (check_line now data) (str_split newline data)).

(** The body of the loop of [asyncCheck]. *)
Definition asyncCheck_line (now : Z) (line : string) : M unit :=
  if is_keep_alive line then
    internalSend "."
  else if startswith "{" line then
    event <- loads line ;;
    receive now event
  else ret tt.

(** [asyncCheck], run to completion.  [ConnectionError] is an [OSError], so
    the first handler takes it; what that handler raises again reaches the
    outer one, which logs it. *)
Definition asyncCheck (now : Z) (r : recv_result) : M unit :=
  fun s =>
    let inner :=
      data <- sock_recv r ;;
      if Nat.eqb (String.length data) 0 then
        sock_close ;;
        modify (with_connected false)
      else
        for_each (asyncCheck_line now) (str_split newline data) in
    match inner s with
    | (Ok _, s') => (Ok tt, s')
    | (Raised (OSError errno), s') =>
        if errno =? 11 then (Ok tt, s')
        else log ("Error in check: " ++ exn_str H (OSError errno)) s'
    | (Raised e, s') => log ("Error in check: " ++ exn_str H e) s'
    end.

(** *** [uuid4]

    [rnd i] is the [i]-th draw of [random.getrandbits(8)]. *)
Definition uuid4 (rnd : nat -> Z) : string :=
  let random_bytes := map (fun i => rnd i mod 256) (seq 0 16) in
  let random_bytes :=
    <[6%nat := Z.lor (Z.land (nth 6 random_bytes 0) 15) 64]> random_bytes in
  let random_bytes :=
    <[8%nat := Z.lor (Z.land (nth 8 random_bytes 0) 63) 128]> random_bytes in
  let hex_string := String.concat "" (map hex2 random_bytes) in
  join "-" [slice 0 8 hex_string; slice 8 12 hex_string; slice 12 16 hex_string;
            slice 16 20 hex_string; slice 20 32 hex_string].

(** *** [call]

    [data] is the caller's dictionary, changed in place: the method gives
    back its new contents together with the record it returns (the object
    stored in [self.calls], by its place in [heap]). *)
Definition alloc (p : pending) : M nat :=
  s <- get ;;
  let l := fresh (dom (heap s)) in
  store l p ;;
  ret l.

Definition call (now : Z) (rnd : nat -> Z) (channelName callName : string)
    (data : dict) (timeout : Z) : M (dict * nat) :=
  let data := dict_set "_MESSAGE_HANDLE" (JStr callName) data in
  let id := uuid4 rnd in
  let data := dict_set "_MESSAGE_ID" (JStr id) data in
  l <- alloc (Pending callName (Some id) (Some (now + timeout)) None) ;;
  modify (fun s => with_calls (<[id := l]> (calls s)) s) ;;
  send (JStr channelName) data ;;
  ret (data, l).

(** *** [register], [subscribe], [unsubscribe], [stop] *)

Definition register (channelName callName : string) (cb : callback) : M unit :=
  modify (fun s => with_services (<[callName := cb]> (services s)) s) ;;
  internalSend ("subscribe " ++ channelName) ;;
  log ("registered responder on " ++ channelName ++ " for " ++ callName).

Definition subscribe (channelName : string) (f : callback) : M unit :=
  s <- get ;;
  match receivers s !! channelName with
  | Some (Some xs) =>
      modify (with_receivers (<[channelName := Some (xs ++ [f])%list]> (receivers s)))
  | Some None => raise (AttributeError "'NoneType' object has no attribute 'append'")
  | None =>
      modify (with_receivers (<[channelName := Some [f]]> (receivers s)))
  end ;;
  internalSend ("subscribe " ++ channelName) ;;
  log ("subscribed to " ++ channelName).

Definition unsubscribe (channelName : string) : M unit :=
  s <- get ;;
  match receivers s !! channelName with
  | Some _ => modify (with_receivers (delete channelName (receivers s)))
  | None => raise (KeyError (JStr channelName))
  end ;;
  internalSend ("unsubscribe " ++ channelName) ;;
  log ("unsubscribed from " ++ channelName).

Definition stop : M unit :=
  modify (with_reconnect false) ;;
  internalSend "quit" ;;
  sock_close ;;
  modify (with_connected false).

(** *** [__init__] and [init] *)

(** The server as [init] meets it: whether [connect] succeeds, what the
    first read yields, and the write faults of the new socket. *)
Record server : Type := Server {
  connect_ok : bool;
  greeting : recv_result;
  write_faults : list bool
}.

Definition init (srv : server) : M unit :=
  try_pass (
    modify (with_sock (Socket false (write_faults srv) [])) ;;
    (if connect_ok srv then ret tt else raise (OSError 111)) ;;
    s <- get ;;
    internalSend (handle s ++ "(JSON)") ;;
    (* a failed read is passed over and leaves [data] unbound *)
    got <- attempt (sock_recv (greeting srv)) ;;
    match got with
    | None => raise (NameError "data")
    | Some data =>
        if startswith "{" data then
          log "connection established" ;;
          s <- get ;;
          (* the source goes through the keys in the order they were put in;
             [__init__], the only caller, has put in one *)
          for_each (fun channelName => internalSend ("subscribe " ++ channelName))
                   (map fst (map_to_list (receivers s))) ;;
          modify (with_connected true)
        else if startswith "error" data then
          log data ;;
          modify (with_reconnect false)
        else ret tt
    end).

(** The loop [while "#" in handle]; [rnd i] is the [i]-th draw of
    [random.randrange(10)].  [None]: out of fuel. *)
Fixpoint fill_placeholders (fuel : nat) (rnd : nat -> nat) (i : nat) (handle : string)
    : option string :=
  match fuel with
  | O => if contains "#" handle then None else Some handle
  | S fuel' =>
      if contains "#" handle then
        fill_placeholders fuel' rnd (S i)
          (replace_first "#" (str_of_digit (rnd i mod 10)) handle)
      else Some handle
  end.

(** [OOCSI(handle, host, port, callback)].  The constructor ends with
    [while not self.connected: time.sleep(0.2)], and nothing else sets the
    flag: when [init] does not connect it never returns, which is [None]
    here. *)
Definition OOCSI (handle : option string) (host_name : string) (port : Z)
    (cb : callback) (rnd : nat -> nat) (srv : server) : option client :=
  let handle :=
    match handle with
    | None => "OOCSIClient_####"
    | Some h => if Nat.eqb (String.length (strip h)) 0 then "OOCSIClient_####" else h
    end in
  match fill_placeholders (String.length handle) rnd 0 handle with
  | None => None
  | Some handle =>
      let self :=
        Client handle {[ handle := Some [cb] ]} ∅ ∅ true false
               (Socket true [] []) ∅ [] [] in
      let self :=
        exec (log ("connecting to " ++ host_name ++ " port " ++ py_str H (JInt port)) ;;
              init srv) self in
      if connected self then Some self else None
  end.

End Methods.

(** ** Runs of a client

    What the owner of a client can do with it, one operation after the
    other; an exception that reaches the owner ends that operation only. *)

Inductive op : Type :=
  | OpCheck (now : Z) (r : recv_result)
  | OpAsyncCheck (now : Z) (r : recv_result)
  | OpSend (channelName : value) (data : dict)
  | OpCall (now : Z) (rnd : nat -> Z) (channelName callName : string) (data : dict) (timeout : Z)
  | OpRegister (channelName callName : string) (cb : callback)
  | OpSubscribe (channelName : string) (f : callback)
  | OpUnsubscribe (channelName : string)
  | OpStop.

Definition step (H : host) (o : op) (s : client) : client :=
  match o with
  | OpCheck now r => exec (check H now r) s
  | OpAsyncCheck now r => exec (asyncCheck H now r) s
  | OpSend channelName data => exec (send H channelName data) s
  | OpCall now rnd channelName callName data timeout =>
      exec (call H now rnd channelName callName data timeout) s
  | OpRegister channelName callName cb => exec (register channelName callName cb) s
  | OpSubscribe channelName f => exec (subscribe channelName f) s
  | OpUnsubscribe channelName => exec (unsubscribe channelName) s
  | OpStop => exec stop s
  end.

Definition run (H : host) (ops : list op) (s : client) : client :=
  fold_left (fun s o => step H o s) ops s.

(** The calls of user functions made between [s] and [s']. *)
Definition new_calls (s s' : client) : list invocation :=
  drop (length (invoked s)) (invoked s').

(** The writes to the socket made between [s] and [s']. *)
Definition new_writes (s s' : client) : list (string * bool) :=
  drop (length (sock_writes (sock s))) (sock_writes (sock s')).

(** ** A concrete host, for examples

    [dumps] writes a value the way [json.dumps] does when no string needs
    an escape; [loads] knows the lines listed in [known_lines]; [str]
    covers what [str()] gives for scalars.  Function 1 is a subscriber that
    only reads its event; as a responder it adds ["answer": 42] to the
    event in place and returns [None].  Function 2 is a responder that
    leaves the event alone and returns a dictionary of its own.  Function
    5 is a subscriber that writes ["seen": true] into its event.  Function
    9, called either way, raises. *)
Module Demo.

Definition dq : string := String (ascii_of_nat 34) EmptyString.
Definition quoted (s : string) : string := dq ++ s ++ dq.

Fixpoint dumps (v : value) : string :=
  match v with
  | JNull => "null"
  | JBool true => "true"
  | JBool false => "false"
  | JInt n => pretty n
  | JFloat lit => lit
  | JStr s => quoted s
  | JArr items => "[" ++ join ", " (map dumps items) ++ "]"
  | JObj fields =>
      "{" ++ join ", " (map (fun kv => quoted (fst kv) ++ ": " ++ dumps (snd kv)) fields) ++ "}"
  end.

Definition str (v : value) : string :=
  match v with
  | JNull => "None"
  | JBool true => "True"
  | JBool false => "False"
  | _ => dumps v
  end.

Definition exn_text (e : exn) : string :=
  match e with
  | KeyError (JStr k) => "'" ++ k ++ "'"
  | KeyError v => str v
  | TypeError what | AttributeError what | ValueError what | UserError what => what
  | NameError what => "name '" ++ what ++ "' is not defined"
  | OSError errno => "[Errno " ++ pretty errno ++ "]"
  | UnicodeError => ""
  end.

Definition subscriber (f : fn) (sender recipient : value) (event : dict) : cb_outcome :=
  match f with
  | 5%nat => CbReturn (dict_set "seen" (JBool true) event) JNull
  | 9%nat => CbRaise (UserError "boom")
  | _ => CbReturn event JNull
  end.

Definition responder (f : fn) (event : dict) : cb_outcome :=
  match f with
  | 1%nat => CbReturn (dict_set "answer" (JInt 42) event) JNull
  | 2%nat => CbReturn event (JObj [("status", JStr "ok")])
  | 9%nat => CbRaise (UserError "boom")
  | _ => CbReturn event JNull
  end.

(** Inbound events used below. *)
Definition broadcast_x : dict :=
  [("sender", JStr "s"); ("recipient", JStr "channel"); ("timestamp", JInt 0);
   ("x", JInt 1)].
Definition broadcast_me : dict :=
  [("sender", JStr "s"); ("recipient", JStr "me"); ("timestamp", JInt 0);
   ("x", JInt 1)].
Definition response_unknown : dict :=
  [("sender", JStr "s"); ("recipient", JStr "me"); ("timestamp", JInt 0);
   ("_MESSAGE_ID", JStr "no-such-call"); ("x", JInt 1)].
Definition service_call : dict :=
  [("sender", JStr "alice"); ("recipient", JStr "channel"); ("timestamp", JInt 0);
   ("_MESSAGE_HANDLE", JStr "add"); ("_MESSAGE_ID", JStr "id-1"); ("x", JInt 1)].
Definition no_timestamp : dict :=
  [("sender", JStr "s"); ("recipient", JStr "channel"); ("x", JInt 1)].

(** The line of the specification's round trip, without blanks. *)
Definition line_x : string :=
  "{" ++ quoted "sender" ++ ":" ++ quoted "s" ++ "," ++
  quoted "recipient" ++ ":" ++ quoted "channel" ++ "," ++
  quoted "timestamp" ++ ":0," ++ quoted "x" ++ ":1}".

Definition known_lines : list (string * dict) :=
  (line_x, broadcast_x) ::
  map (fun d => (dumps (JObj d), d))
      [broadcast_x; broadcast_me; response_unknown; service_call; no_timestamp].

Fixpoint loads_from (table : list (string * dict)) (line : string) : option dict :=
  match table with
  | [] => None
  | (text, d) :: rest => if String.eqb line text then Some d else loads_from rest line
  end.

Definition py : host :=
  Host (loads_from known_lines) (fun d => dumps (JObj d)) str exn_text
       subscriber responder.

(** A connected client named ["me"], with callback 1 for its own channel
    and callbacks 1, 3, 1 for ["channel"]. *)
Definition client0 : client :=
  Client "me"
         (<["channel" := Some [Some 1%nat; Some 3%nat; Some 1%nat]]>
           {[ "me" := Some [Some 1%nat] ]})
         ∅ ∅ true true (Socket false [] []) ∅ [] [].

(** [client0] after a call of ["add"] on ["srv"] at time 100 with a
    timeout of 5, the random bytes being all zero; and a response to it. *)
Definition zero_rnd : nat -> Z := fun _ => 0.
Definition call_id : string := uuid4 zero_rnd.
Definition client1 : client :=
  exec (call py 100 zero_rnd "srv" "add" [("x", JInt 1)] 5) client0.
Definition response_ok : dict :=
  [("sender", JStr "srv"); ("recipient", JStr "me"); ("timestamp", JInt 0);
   ("_MESSAGE_ID", JStr call_id); ("sum", JInt 3)].

(** [client0] with a responder registered for ["add"]: function 1, or
    function 2. *)
Definition client_add1 : client := exec (register "channel" "add" (Some 1%nat)) client0.
Definition client_add2 : client := exec (register "channel" "add" (Some 2%nat)) client0.

(** [client0] with the raising function 9 as a fourth subscriber of
    ["channel"]. *)
Definition client_boom : client := exec (subscribe "channel" (Some 9%nat)) client0.

(** A connected client named ["me"] whose channel ["channel"] has the
    writing subscriber 5 and then subscriber 3; and the same with responder
    1 registered for ["add"]. *)
Definition client_w : client :=
  Client "me"
         (<["channel" := Some [Some 5%nat; Some 3%nat]]> {[ "me" := Some [Some 1%nat] ]})
         ∅ ∅ true true (Socket false [] []) ∅ [] [].
Definition client_w_add1 : client := exec (register "channel" "add" (Some 1%nat)) client_w.

End Demo.

(** ** The vocabulary of the properties *)

(** [keeps R m]: whatever [m] does, the state before and the state after
    are related by [R], also when [m] raises. *)
Definition keeps {A} (R : relation client) (m : M A) : Prop :=
  ∀ s, R s (snd (m s)).

(** Only the transport, the flags and the console may differ. *)
Definition quiet : relation client := fun s s' =>
  handle s' = handle s ∧ receivers s' = receivers s ∧ calls s' = calls s ∧
  services s' = services s ∧ heap s' = heap s ∧ invoked s' = invoked s.

(** The registries and the call records are the same; user functions may
    have been called. *)
Definition same_store : relation client := fun s s' =>
  handle s' = handle s ∧ receivers s' = receivers s ∧ calls s' = calls s ∧
  services s' = services s ∧ heap s' = heap s.

(** Once the socket is closed it stays closed, the client stays
    disconnected, and no user function is called. *)
Definition stays_dead : relation client := fun s s' =>
  sock_closed (sock s) = true → connected s = false →
  sock_closed (sock s') = true ∧ connected s' = false ∧ invoked s' = invoked s.

(** [event] is, for the client in state [s], a response carrying the call
    id [id]: it has the three fields [receive] needs, it is not taken for a
    service call, and its [_MESSAGE_ID] is [id]. *)
Definition is_response (s : client) (event : dict) (id : string) : Prop :=
  dict_has "sender" event = true ∧ dict_has "recipient" event = true ∧
  dict_has "timestamp" event = true ∧
  service_entry (services s) (cleaned event) = Ok None ∧
  dict_get "_MESSAGE_ID" event = Some (JStr id).

(** [self.calls[id]] is the record [p] at [l], as [call] made it and still
    waiting, with deadline [d]. *)
Definition awaits (s : client) (id : string) (l : nat) (p : pending) (d : Z) : Prop :=
  calls s !! id = Some l ∧ heap s !! l = Some p ∧
  p_expiration p = Some d ∧ is_Some (p_id p) ∧ p_response p = None.

(** [m] answers a keep-alive and does nothing else: it returns, it writes
    [.] and a newline to the socket once (a write that goes through when
    the socket is open and the peer makes no trouble), and the registries,
    the call records and the list of calls of user functions are as
    before. *)
Definition answers_keep_alive_only (m : M unit) (s : client) : Prop :=
  outcome m s = Ok tt ∧
  quiet s (exec m s) ∧
  ∃ ok, new_writes s (exec m s) = [(String "." (String newline EmptyString), ok)] ∧
        (sock_closed (sock s) = false → sock_faults (sock s) = [] → ok = true).

(** [m] ends the connection of [s] for good: after it the socket is closed
    and the client disconnected, no user function was called, and this
    stays so whatever is done with the client afterwards. *)
Definition ends_connection (H : host) (m : M unit) (s : client) : Prop :=
  sock_closed (sock (exec m s)) = true ∧
  connected (exec m s) = false ∧
  invoked (exec m s) = invoked s ∧
  same_store s (exec m s) ∧
  ∀ ops, sock_closed (sock (run H ops (exec m s))) = true ∧
         connected (run H ops (exec m s)) = false ∧
         invoked (run H ops (exec m s)) = invoked s.

(** [event] is, for the client in state [s], a plain broadcast from
    [sender] to [recipient]: it has the three fields [receive] needs, it
    is not taken for a service call, and it carries no [_MESSAGE_ID]. *)
Definition is_broadcast (s : client) (event : dict) (sender recipient : value) : Prop :=
  dict_get "sender" event = Some sender ∧
  dict_get "recipient" event = Some recipient ∧
  dict_has "timestamp" event = true ∧
  service_entry (services s) (cleaned event) = Ok None ∧
  dict_has "_MESSAGE_ID" event = false.

(** The function an invocation went to. *)
Definition inv_fn (i : invocation) : fn :=
  match i with
  | CallSubscriber f _ _ _ => f
  | CallResponder f _ => f
  end.

(** [i] is a call of a subscriber with [sender] and [recipient]. *)
Definition delivers (sender recipient : value) (i : invocation) : Prop :=
  ∃ f event, i = CallSubscriber f sender recipient event.

(** The callbacks [receiveChannelEvent] goes through for [channel]. *)
Definition subscribers_of (s : client) (channel : string) : list callback :=
  match receivers s !! channel with
  | Some (Some xs) => xs
  | Some None => []
  | None => []
  end.

(** [event] is, for the client in state [s], a call of the service
    [name], whose responder is the function [f], from [sender] on
    [channel]. *)
Definition is_service_call (s : client) (event : dict) (sender : value)
    (channel name : string) (f : fn) : Prop :=
  dict_get "sender" event = Some sender ∧
  dict_get "recipient" event = Some (JStr channel) ∧
  dict_has "timestamp" event = true ∧
  dict_get "_MESSAGE_HANDLE" event = Some (JStr name) ∧
  services s !! name = Some (Some f).


(** What [receiveChannelEvent] does with the callbacks [xs], as the list
    of the calls it makes: every function gets the one event dictionary,
    as the functions before it left it; the list ends before an entry that
    is [None] (calling it raises) and after a function that raises. *)
Fixpoint deliveries (H : host) (xs : list callback) (sender recipient : value)
    (event : dict) : list invocation :=
  match xs with
  | [] => []
  | None :: _ => []
  | Some f :: rest =>
      CallSubscriber f sender recipient event ::
      match run_subscriber H f sender recipient event with
      | CbReturn event' _ => deliveries H rest sender recipient event'
      | CbRaise _ => []
      end
  end.

(** The [except] clauses of [asyncCheck], applied to what its body did. *)
Definition async_handlers (H : host) (done : res unit * client) : res unit * client :=
  match done with
  | (Ok _, s') => (Ok tt, s')
  | (Raised (OSError errno), s') =>
      if errno =? 11 then (Ok tt, s')
      else log ("Error in check: " ++ exn_str H (OSError errno)) s'
  | (Raised e, s') => log ("Error in check: " ++ exn_str H e) s'
  end.

(** ** More of [oocsi.py]: [callAndWait], [heyOOCSI] and [OOCSIDevice] *)

Section MoreMethods.
Context (H : host).

(** *** [callAndWait]

    [clock i] is the [i]-th reading of [time.time()] from the start of the
    method: reading 0 is taken inside [call], reading 1 gives
    [expiration], the readings from 2 on are those of the loop condition.
    [time.sleep] does nothing to the client.  The loop has fuel; [false]
    says that it ran out, the method still being in its loop. *)

(** ['response' in call] *)
Definition has_response (l : nat) : M bool :=
  p <- deref l ;;
  ret (match p_response p with Some _ => true | None => false end).

Fixpoint wait_loop (fuel : nat) (clock : nat -> Z) (i : nat) (expiration : Z) (l : nat)
    : M bool :=
  match fuel with
  | O => ret false
  | S fuel' =>
      if clock i <? expiration then
        (* time.sleep(0.1) *)
        answered <- has_response l ;;
        if answered then ret true
        else wait_loop fuel' clock (S i) expiration l
      else ret true
  end.

Definition callAndWait (fuel : nat) (clock : nat -> Z) (rnd : nat -> Z)
    (channelName callName : string) (data : dict) (timeout : Z)
    : M (option (dict * nat)) :=
  r <- call H (clock 0%nat) rnd channelName callName data timeout ;;
  let expiration := clock 1%nat + timeout in
  finished <- wait_loop fuel clock 2 expiration (snd r) ;;
  ret (if finished then Some r else None).

(** *** [OOCSIDevice]

    [self._device] is a dictionary with the one key [device_name], whose
    value is a dictionary with the keys [properties], [components] and
    [location], in this order; no method adds or removes a key at these two
    levels, so the model keeps the three inner dictionaries, and
    [device_dict] is [self._device].  [self._components] is the same object
    as the [components] entry.  The methods return [self]: here the device
    as it is then. *)
Record device : Type := Device {
  dev_name : string;
  dev_properties : dict;
  dev_components : dict;
  dev_location : dict
}.

Definition device_dict (d : device) : dict :=
  [(dev_name d,
    JObj [("properties", JObj (dev_properties d));
          ("components", JObj (dev_components d));
          ("location", JObj (dev_location d))])].

(** [self._components[name] = {}], the keys set one by one, and the entry
    of the device set to the same object. *)
Definition put_component (name : string) (component : dict) (d : device) : device :=
  Device (dev_name d) (dev_properties d)
         (dict_set name (JObj component) (dev_components d)) (dev_location d).

Definition log_component (name : string) (d : device) : M unit :=
  log ("Added " ++ name ++ " to the components list of device " ++ dev_name d ++ ".").

Definition OOCSIDevice (device_name : string) : M device :=
  s <- get ;;
  let d := Device device_name (dict_set "device_id" (JStr (handle s)) []) [] [] in
  log ("Created device " ++ device_name ++ ".") ;;
  ret d.

(** [heyOOCSI(custom_name)] *)
Definition heyOOCSI (custom_name : option string) : M device :=
  match custom_name with
  | None => s <- get ;; OOCSIDevice (handle s)
  | Some name => OOCSIDevice name
  end.

Definition addProperty (properties : string) (propertyValue : value) (d : device) : M device :=
  let d' := Device (dev_name d) (dict_set properties propertyValue (dev_properties d))
                   (dev_components d) (dev_location d) in
  log ("Added " ++ properties ++ " to the properties list of device " ++ dev_name d ++ ".") ;;
  ret d'.

Definition addLocation (location_name : string) (latitude longitude : value) (d : device)
    : M device :=
  let d' := Device (dev_name d) (dev_properties d) (dev_components d)
                   (dict_set location_name (JArr [latitude; longitude]) (dev_location d)) in
  log ("Added " ++ location_name ++ " to the locations list of device " ++ dev_name d ++ ".") ;;
  ret d'.

Definition addSensor (sensor_name sensor_channel sensor_type sensor_unit : string)
    (sensor_default : value) (mode : string) (step icon : value) (d : device) : M device :=
  let c := [] in
  let c := dict_set "channel_name" (JStr sensor_channel) c in
  let c := dict_set "type" (JStr "sensor") c in
  let c := dict_set "sensor_type" (JStr sensor_type) c in
  let c := dict_set "unit" (JStr sensor_unit) c in
  let c := dict_set "value" sensor_default c in
  let c := dict_set "mode" (JStr mode) c in
  let c := dict_set "step" step c in
  let c := dict_set "icon" icon c in
  log_component sensor_name d ;;
  ret (put_component sensor_name c d).

Definition addNumber (number_name number_channel : string) (number_min_max : value)
    (number_unit : string) (number_default icon : value) (d : device) : M device :=
  let c := [] in
  let c := dict_set "channel_name" (JStr number_channel) c in
  let c := dict_set "min_max" number_min_max c in
  let c := dict_set "type" (JStr "number") c in
  let c := dict_set "unit" (JStr number_unit) c in
  let c := dict_set "value" number_default c in
  let c := dict_set "icon" icon c in
  log_component number_name d ;;
  ret (put_component number_name c d).

Definition addBinarySensor (sensor_name sensor_channel sensor_type : string)
    (sensor_default icon : value) (d : device) : M device :=
  let c := [] in
  let c := dict_set "channel_name" (JStr sensor_channel) c in
  let c := dict_set "type" (JStr "binary_sensor") c in
  let c := dict_set "sensor_type" (JStr sensor_type) c in
  let c := dict_set "state" sensor_default c in
  let c := dict_set "icon" icon c in
  log_component sensor_name d ;;
  ret (put_component sensor_name c d).

Definition addSwitch (switch_name switch_channel : string) (switch_default icon : value)
    (d : device) : M device :=
  let c := [] in
  let c := dict_set "channel_name" (JStr switch_channel) c in
  let c := dict_set "type" (JStr "switch") c in
  let c := dict_set "state" switch_default c in
  let c := dict_set "icon" icon c in
  log_component switch_name d ;;
  ret (put_component switch_name c d).

Definition SPECTRUM : list string := ["WHITE"; "CCT"; "RGB"].
Definition LEDTYPE : list string := ["RGB"; "RGBW"; "RGBWW"; "CCT"; "DIMMABLE"; "ONOFF"].

(** [x in names] for a list of strings *)
Definition str_in (x : string) (names : list string) : bool :=
  existsb (String.eqb x) names.

(** [v in names] for any value [v]: only a string can be equal to one *)
Definition value_in (v : value) (names : list string) : bool :=
  match v with
  | JStr x => str_in x names
  | _ => false
  end.

Definition addLight (light_name light_channel led_type : string) (spectrum : value)
    (light_default_state light_default_brightness mired_min_max icon : value)
    (d : device) : M device :=
  let c := [] in
  c <- (if str_in led_type LEDTYPE then
          if value_in spectrum SPECTRUM then ret (dict_set "spectrum" spectrum c)
          else log ("error, " ++ light_name ++ " spectrum does not exist.") ;; ret c
        else log ("error, " ++ light_name ++ " ledtype does not exist.") ;; ret c) ;;
  let c := dict_set "channel_name" (JStr light_channel) c in
  let c := dict_set "type" (JStr "light") c in
  let c := dict_set "ledType" (JStr led_type) c in
  let c := dict_set "spectrum" spectrum c in
  let c := dict_set "min_max" mired_min_max c in
  let c := dict_set "state" light_default_state c in
  let c := dict_set "brightness" light_default_brightness c in
  let c := dict_set "icon" icon c in
  log_component light_name d ;;
  ret (put_component light_name c d).

Definition submit (d : device) : M unit :=
  internalSend ("sendraw " ++ "heyOOCSI!" ++ " " ++ json_dumps H (device_dict d)) ;;
  log ("Sent heyOOCSI! message for device " ++ dev_name d ++ ".").

Definition sayHi (d : device) : M unit := submit d.

End MoreMethods.

(** * Properties *)

Local Open Scope list_scope.

(** ** Dictionaries *)

Lemma dict_get_remove_ne (k k' : string) (d : dict) :
  k ≠ k' → dict_get k (dict_remove k' d) = dict_get k d.
Proof.
  intros Hne. induction d as [|[k0 v0] d IH]; [done|]. simpl.
  destruct (String.eqb_spec k' k0) as [->|Hk0]; simpl.
  - destruct (String.eqb_spec k k0); congruence.
  - destruct (String.eqb_spec k k0); [done | apply IH].
Qed.

Lemma dict_has_remove_ne (k k' : string) (d : dict) :
  k ≠ k' → dict_has k (dict_remove k' d) = dict_has k d.
Proof. intros Hne. unfold dict_has. by rewrite dict_get_remove_ne. Qed.

Lemma dict_get_remove_eq (k : string) (d : dict) :
  NoDup (map fst d) → dict_get k (dict_remove k d) = None.
Proof.
  induction d as [|[k0 v0] d IH]; [done|]. simpl. intros Hnd.
  apply NoDup_cons in Hnd as [Hnotin Hnd].
  destruct (String.eqb_spec k k0) as [->|Hk0]; simpl.
  - clear IH Hnd. induction d as [|[k1 v1] d IH]; [done|]. simpl in *.
    destruct (String.eqb_spec k0 k1) as [->|?].
    + exfalso. apply Hnotin. by left.
    + apply IH. intros Hin. apply Hnotin. by right.
  - destruct (String.eqb_spec k k0); [done | by apply IH].
Qed.

Lemma dict_remove_keys (k : string) (d : dict) :
  NoDup (map fst d) → NoDup (map fst (dict_remove k d)).
Proof.
  induction d as [|[k0 v0] d IH]; [done|]. simpl. intros Hnd.
  apply NoDup_cons in Hnd as [Hnotin Hnd].
  destruct (String.eqb k k0); [done|]. simpl. apply NoDup_cons. split; [|by apply IH].
  intros Hin. apply Hnotin. clear -Hin.
  induction d as [|[k1 v1] d IH]; [done|]. simpl in *.
  destruct (String.eqb k k1); [by right|].
  simpl in Hin. apply elem_of_cons in Hin as [->|Hin]; [by left | right; by apply IH].
Qed.

Lemma dict_get_set_eq (k : string) (v : value) (d : dict) :
  dict_get k (dict_set k v d) = Some v.
Proof.
  induction d as [|[k0 v0] d IH]; simpl.
  - by rewrite String.eqb_refl.
  - destruct (String.eqb_spec k k0) as [->|Hk0]; simpl.
    + by rewrite String.eqb_refl.
    + destruct (String.eqb_spec k k0); [done | apply IH].
Qed.

Lemma dict_get_set_ne (k k' : string) (v : value) (d : dict) :
  k ≠ k' → dict_get k (dict_set k' v d) = dict_get k d.
Proof.
  intros Hne. induction d as [|[k0 v0] d IH]; simpl.
  - destruct (String.eqb_spec k k'); [done | done].
  - destruct (String.eqb_spec k' k0) as [->|Hk0]; simpl.
    + destruct (String.eqb_spec k k0); [done|].
      destruct (String.eqb_spec k k0); done.
    + destruct (String.eqb_spec k k0); [done | apply IH].
Qed.

Lemma dict_has_get (k : string) (d : dict) (v : value) :
  dict_get k d = Some v → dict_has k d = true.
Proof. unfold dict_has. by intros ->. Qed.

Lemma dict_has_false (k : string) (d : dict) :
  dict_has k d = false → dict_get k d = None.
Proof. unfold dict_has. by destruct (dict_get k d). Qed.

(** ** What a method leaves alone *)

#[local] Instance quiet_preorder : PreOrder quiet.
Proof.
  split; [by intros s; repeat split|].
  intros s1 s2 s3 (?&?&?&?&?&?) (?&?&?&?&?&?). repeat split; congruence.
Qed.

#[local] Instance same_store_preorder : PreOrder same_store.
Proof.
  split; [by intros s; repeat split|].
  intros s1 s2 s3 (?&?&?&?&?) (?&?&?&?&?). repeat split; congruence.
Qed.

#[local] Instance stays_dead_preorder : PreOrder stays_dead.
Proof.
  split; [by intros s ? ?|].
  intros s1 s2 s3 H12 H23 Hc Hd.
  destruct (H12 Hc Hd) as (Hc2 & Hd2 & Hi2).
  destruct (H23 Hc2 Hd2) as (Hc3 & Hd3 & Hi3).
  repeat split; congruence.
Qed.

Lemma quiet_same_store s s' : quiet s s' → same_store s s'.
Proof. intros (?&?&?&?&?&?). by repeat split. Qed.

Section Keeps.
Context {R : relation client} `{!PreOrder R}.

Lemma keeps_ret {A} (a : A) : keeps R (ret a).
Proof. intros s. reflexivity. Qed.

Lemma keeps_raise {A} (e : exn) : keeps R (raise (A := A) e).
Proof. intros s. reflexivity. Qed.

Lemma keeps_lift {A} (r : res A) : keeps R (lift r).
Proof. intros s. reflexivity. Qed.

Lemma keeps_get : keeps R get.
Proof. intros s. reflexivity. Qed.

Lemma keeps_bind {A B} (m : M A) (k : A → M B) :
  keeps R m → (∀ a, keeps R (k a)) → keeps R (bind m k).
Proof.
  intros Hm Hk s. unfold bind. specialize (Hm s).
  destruct (m s) as [[a|e] s']; simpl in *; [|done].
  etrans; [exact Hm | apply Hk].
Qed.

Lemma keeps_try_pass {A} (m : M A) : keeps R m → keeps R (try_pass m).
Proof. intros Hm s. apply Hm. Qed.

Lemma keeps_for_each {A} (body : A → M unit) (xs : list A) :
  (∀ x, keeps R (body x)) → keeps R (for_each body xs).
Proof.
  intros Hbody. induction xs as [|x xs IH]; simpl.
  - apply keeps_ret.
  - apply keeps_bind; [apply Hbody | intros _; apply IH].
Qed.

Lemma keeps_getitem (k : string) (d : dict) : keeps R (getitem k d).
Proof. unfold getitem. destruct (dict_get k d); [apply keeps_ret | apply keeps_raise]. Qed.

Lemma keeps_delitem (k : string) (d : dict) : keeps R (delitem k d).
Proof. unfold delitem. destruct (dict_has k d); [apply keeps_ret | apply keeps_raise]. Qed.

Lemma keeps_attempt {A} (m : M A) : keeps R m → keeps R (attempt m).
Proof. intros Hm s. specialize (Hm s). unfold attempt. by destruct (m s) as [[]]. Qed.

Lemma keeps_modify (f : client → client) : (∀ s, R s (f s)) → keeps R (modify f).
Proof. intros Hf s. apply Hf. Qed.

End Keeps.

Create HintDb frame discriminated.
#[local] Hint Resolve keeps_ret keeps_raise keeps_lift keeps_get keeps_getitem
  keeps_delitem keeps_try_pass : frame.

(** Take a method apart along its binds and case distinctions. *)
Ltac frame_step :=
  lazymatch goal with
  | |- keeps _ (bind _ _) => apply keeps_bind; [|intros ?]
  | |- keeps _ (for_each _ _) => apply keeps_for_each; intros ?
  | |- keeps _ (try_pass _) => apply keeps_try_pass
  | |- keeps _ (attempt _) => apply keeps_attempt
  | |- keeps _ (modify _) =>
      apply keeps_modify; intros ?; first [by repeat split | by intros ? ?; repeat split]
  | |- keeps _ (match ?x with _ => _ end) => destruct x
  | |- keeps _ (let x := _ in _) => cbv zeta
  | |- keeps _ _ => solve [eauto with frame typeclass_instances]
  end.
Ltac frame := repeat frame_step.

Lemma keeps_weaken {A} (R R' : relation client) (m : M A) :
  (∀ s s', R s s' → R' s s') → keeps R m → keeps R' m.
Proof. intros HR Hm s. apply HR, Hm. Qed.

Section MethodFrames.
Context (H : host).

Lemma sendall_closed (data : string) (sk : socket) :
  sock_closed sk = true →
  sendall data sk = (false, Socket true (sock_faults sk) (sock_writes sk ++ [(data, false)])).
Proof. unfold sendall. by intros ->. Qed.

(** Each [sendall] adds one entry to the record of writes. *)
Lemma sendall_writes (data : string) (sk : socket) :
  ∃ ok, sendall data sk = (ok, snd (sendall data sk)) ∧
        sock_writes (snd (sendall data sk)) = sock_writes sk ++ [(data, ok)] ∧
        sock_closed (snd (sendall data sk)) = sock_closed sk.
Proof.
  unfold sendall. destruct (sock_closed sk) eqn:Hc; [by exists false|].
  destruct (sock_faults sk) as [|[] later]; by eexists.
Qed.

Lemma internalSend_quiet (msg : string) : keeps quiet (internalSend msg).
Proof.
  intros s. unfold internalSend.
  destruct (sendall _ (sock s)) as [[] sk]; by repeat split.
Qed.

Lemma internalSend_dead (msg : string) : keeps stays_dead (internalSend msg).
Proof.
  intros s Hc Hd. unfold internalSend. rewrite sendall_closed by done.
  by repeat split.
Qed.

Lemma log_quiet (message : string) : keeps quiet (log message).
Proof. intros s. by repeat split. Qed.

Lemma log_dead (message : string) : keeps stays_dead (log message).
Proof. intros s Hc Hd. by repeat split. Qed.

Lemma sock_close_quiet : keeps quiet sock_close.
Proof. intros s. by repeat split. Qed.

Lemma sock_close_dead : keeps stays_dead sock_close.
Proof. intros s Hc Hd. by repeat split. Qed.

Lemma disconnect_quiet : keeps quiet (modify (with_connected false)).
Proof. intros s. by repeat split. Qed.

Lemma disconnect_dead : keeps stays_dead (modify (with_connected false)).
Proof. intros s Hc Hd. by repeat split. Qed.

Lemma send_quiet (channelName : value) (data : dict) : keeps quiet (send H channelName data).
Proof. apply internalSend_quiet. Qed.

Lemma send_dead (channelName : value) (data : dict) : keeps stays_dead (send H channelName data).
Proof. apply internalSend_dead. Qed.

Lemma internalSend_store (msg : string) : keeps same_store (internalSend msg).
Proof. eapply keeps_weaken; [apply quiet_same_store | apply internalSend_quiet]. Qed.

Lemma log_store (message : string) : keeps same_store (log message).
Proof. eapply keeps_weaken; [apply quiet_same_store | apply log_quiet]. Qed.

Lemma send_store (channelName : value) (data : dict) :
  keeps same_store (send H channelName data).
Proof. apply internalSend_store. Qed.

Lemma sock_recv_any (R : relation client) `{!PreOrder R} (r : recv_result) :
  keeps R (sock_recv r).
Proof. unfold sock_recv. frame. Qed.

Lemma call_subscriber_store (x : callback) (sender recipient : value) (event : dict) :
  keeps same_store (call_subscriber H x sender recipient event).
Proof.
  destruct x as [f|]; simpl; [|apply keeps_raise].
  apply keeps_bind; [by intros s; repeat split|intros _].
  destruct (run_subscriber H f sender recipient event); frame.
Qed.

Lemma call_subscribers_store (xs : list callback) (sender recipient : value) (event : dict) :
  keeps same_store (call_subscribers H xs sender recipient event).
Proof.
  revert event. induction xs as [|x xs IH]; intros event; simpl.
  - apply keeps_ret.
  - apply keeps_bind; [apply call_subscriber_store | intros ?; apply IH].
Qed.

Lemma receiveChannelEvent_store (sender recipient : value) (event : dict) :
  keeps same_store (receiveChannelEvent H sender recipient event).
Proof.
  unfold receiveChannelEvent.
  apply keeps_bind; [apply keeps_lift | intros k].
  intros s. unfold bind, get. simpl.
  destruct k as [channel|]; [|reflexivity].
  destruct (receivers s !! channel) as [[xs|]|]; [|reflexivity..].
  apply call_subscribers_store.
Qed.

Lemma call_responder_store (service : callback) (event : dict) :
  keeps same_store (call_responder H service event).
Proof.
  destruct service as [f|]; simpl; [|apply keeps_raise].
  apply keeps_bind; [by intros s; repeat split|intros _].
  destruct (run_responder H f event); frame.
Qed.

Lemma find_service_any (R : relation client) `{!PreOrder R} (event : dict) :
  keeps R (find_service event).
Proof. unfold find_service. frame. Qed.

Lemma find_service_eq (event : dict) (s : client) :
  find_service event s = (service_entry (services s) event, s).
Proof. done. Qed.

End MethodFrames.

#[local] Hint Resolve internalSend_quiet internalSend_dead log_quiet log_dead
  sock_close_quiet sock_close_dead disconnect_quiet disconnect_dead
  send_quiet send_dead internalSend_store log_store send_store
  sock_recv_any call_subscriber_store
  call_subscribers_store receiveChannelEvent_store call_responder_store
  find_service_any : frame.

(** ** Running a method step by step *)

Lemma bind_ok {A B} (m : M A) (k : A → M B) (s s' : client) (a : A) :
  m s = (Ok a, s') → bind m k s = k a s'.
Proof. unfold bind. by intros ->. Qed.

Lemma bind_raised {A B} (m : M A) (k : A → M B) (s s' : client) (e : exn) :
  m s = (Raised e, s') → bind m k s = (Raised e, s').
Proof. unfold bind. by intros ->. Qed.

Lemma getitem_ok (k : string) (d : dict) (v : value) (s : client) :
  dict_get k d = Some v → getitem k d s = (Ok v, s).
Proof. unfold getitem. by intros ->. Qed.

Lemma delitem_ok (k : string) (d : dict) (s : client) :
  dict_has k d = true → delitem k d s = (Ok (dict_remove k d), s).
Proof. unfold delitem. by intros ->. Qed.

Lemma lookup_call_str (id : string) (s : client) :
  lookup_call (JStr id) s =
  match calls s !! id with
  | Some l => (Ok l, s)
  | None => (Raised (KeyError (JStr id)), s)
  end.
Proof. unfold lookup_call, bind, lift, get. simpl. by destruct (calls s !! id). Qed.

Lemma deref_ok (l : nat) (p : pending) (s : client) :
  heap s !! l = Some p → deref l s = (Ok p, s).
Proof. unfold deref, bind, get. by intros ->. Qed.

(** ** The clean-up at the head of [receive] *)

Section Receive.
Context (H : host).

(** The head of [receive]: the two look-ups and the three deletions raise
    for the first field they miss, before anything else is done. *)
Lemma receive_head (now : Z) (event : dict) (s : client) :
  receive H now event s =
  match dict_get "sender" event, dict_get "recipient" event with
  | None, _ => (Raised (KeyError (JStr "sender")), s)
  | Some _, None => (Raised (KeyError (JStr "recipient")), s)
  | Some sender, Some recipient =>
      if dict_has "timestamp" event
      then dispatch H now sender recipient (cleaned event) s
      else (Raised (KeyError (JStr "timestamp")), s)
  end.
Proof.
  unfold receive, getitem, delitem, bind at 1 2 3 4 5.
  destruct (dict_get "sender" event) as [sender|] eqn:Hs; [|done].
  destruct (dict_get "recipient" event) as [recipient|] eqn:Hr; [|done].
  simpl. rewrite (dict_has_get _ _ _ Hr). simpl.
  rewrite dict_has_remove_ne by done. rewrite (dict_has_get _ _ _ Hs). simpl.
  rewrite !dict_has_remove_ne by done.
  by destruct (dict_has "timestamp" event).
Qed.

(** With the three fields present, [receive] is the dispatch on the
    cleaned event. *)
Lemma receive_cleaned (now : Z) (event : dict) (sender recipient : value) (s : client) :
  dict_get "sender" event = Some sender →
  dict_get "recipient" event = Some recipient →
  dict_has "timestamp" event = true →
  receive H now event s = dispatch H now sender recipient (cleaned event) s.
Proof. intros Hs Hr Ht. by rewrite receive_head, Hs, Hr, Ht. Qed.

(** Keys other than the four control fields pass the clean-up. *)
Lemma cleaned_other (k : string) (event : dict) :
  k ≠ "sender" → k ≠ "recipient" → k ≠ "timestamp" → k ≠ "data" →
  dict_get k (cleaned event) = dict_get k event.
Proof.
  intros. unfold cleaned.
  destruct (dict_has "data" _); rewrite ?dict_get_remove_ne by done; done.
Qed.

(** The four control fields do not. *)
Lemma cleaned_control (k : string) (event : dict) :
  NoDup (map fst event) →
  k ∈ ["sender"; "recipient"; "timestamp"; "data"] →
  dict_get k (cleaned event) = None.
Proof.
  intros Hnd Hk. unfold cleaned.
  set (e1 := dict_remove "recipient" event).
  set (e2 := dict_remove "sender" e1).
  set (e3 := dict_remove "timestamp" e2).
  assert (NoDup (map fst e1)) by by apply dict_remove_keys.
  assert (NoDup (map fst e2)) by by apply dict_remove_keys.
  assert (NoDup (map fst e3)) by by apply dict_remove_keys.
  assert (dict_get "recipient" e3 = None) as Hrec.
  { unfold e3, e2. rewrite !dict_get_remove_ne by done. by apply dict_get_remove_eq. }
  assert (dict_get "sender" e3 = None) as Hsen.
  { unfold e3. rewrite !dict_get_remove_ne by done. by apply dict_get_remove_eq. }
  assert (dict_get "timestamp" e3 = None) as Htim by by apply dict_get_remove_eq.
  repeat (apply elem_of_cons in Hk as [->|Hk]); [..|by apply elem_of_nil in Hk].
  - destruct (dict_has "data" e3); rewrite ?dict_get_remove_ne by done; done.
  - destruct (dict_has "data" e3); rewrite ?dict_get_remove_ne by done; done.
  - destruct (dict_has "data" e3); rewrite ?dict_get_remove_ne by done; done.
  - destruct (dict_has "data" e3) eqn:Hd; [by apply dict_get_remove_eq|].
    by apply dict_has_false.
Qed.

(** C10.  An event that lacks [sender], [recipient] or [timestamp] makes
    [receive] raise a [KeyError] for a missing one of the three, and the
    client is then exactly as it was: no callback or responder has run, no
    pending call has changed, nothing was sent. *)
Theorem receive_requires_control_fields (now : Z) (event : dict) (s : client) :
  dict_has "sender" event = false ∨ dict_has "recipient" event = false ∨
    dict_has "timestamp" event = false →
  ∃ k, k ∈ ["sender"; "recipient"; "timestamp"] ∧ dict_has k event = false ∧
       receive H now event s = (Raised (KeyError (JStr k)), s).
Proof.
  intros Hmissing. rewrite receive_head. unfold dict_has in Hmissing |- *.
  destruct (dict_get "sender" event) as [sender|] eqn:Hs.
  2:{ exists "sender". rewrite Hs. split; [rewrite !elem_of_cons; auto | done]. }
  destruct (dict_get "recipient" event) as [recipient|] eqn:Hr.
  2:{ exists "recipient". rewrite Hr. split; [rewrite !elem_of_cons; auto | done]. }
  destruct (dict_get "timestamp" event) as [timestamp|] eqn:Ht.
  { by destruct Hmissing as [?|[?|?]]. }
  exists "timestamp". rewrite Ht. split; [rewrite !elem_of_cons; auto | done].
Qed.

End Receive.

Lemma receive_requires_control_fields_witness :
  dict_has "timestamp" Demo.no_timestamp = false ∧
  ∃ k, k ∈ ["sender"; "recipient"; "timestamp"] ∧ dict_has k Demo.no_timestamp = false ∧
       receive Demo.py 0 Demo.no_timestamp Demo.client0
       = (Raised (KeyError (JStr k)), Demo.client0).
Proof.
  split; [reflexivity|].
  apply (receive_requires_control_fields Demo.py 0 Demo.no_timestamp Demo.client0).
  right. right. reflexivity.
Defined.

(** ** A response nobody waits for *)

Section UnknownCall.
Context (H : host).

(** A cleaned event with a [_MESSAGE_ID] that names no entry of
    [self.calls] (and that is not a service call) makes the dispatch raise
    [KeyError]; the client is left as it was. *)
Lemma dispatch_unknown_id (now : Z) (sender recipient : value) (event : dict)
    (id : string) (s : client) :
  service_entry (services s) event = Ok None →
  dict_get "_MESSAGE_ID" event = Some (JStr id) →
  calls s !! id = None →
  dispatch H now sender recipient event s = (Raised (KeyError (JStr id)), s).
Proof.
  intros Hsvc Hid Hcall.
  unfold dispatch. erewrite bind_ok by (rewrite find_service_eq, Hsvc; done).
  rewrite (dict_has_get _ _ _ Hid). unfold receive_response.
  erewrite bind_ok by by apply getitem_ok.
  apply bind_raised. by rewrite lookup_call_str, Hcall.
Qed.

(** The loop of [check] stops at the first line that raises: the lines
    after it are not looked at. *)
Lemma for_each_raises {A} (body : A → M unit) (x : A) (rest : list A) (e : exn)
    (s s' : client) :
  body x s = (Raised e, s') → for_each body (x :: rest) s = (Raised e, s').
Proof. intros Hx. simpl. unfold bind. by rewrite Hx. Qed.

End UnknownCall.

(** C1, on the code.  A chunk of two lines: a response whose [_MESSAGE_ID]
    names no pending call, then a broadcast for a subscribed channel.
    [check] calls no subscriber for the second line, though the same line
    alone in a chunk reaches all three of them; [asyncCheck] does the same
    and logs the [KeyError]. *)
Theorem unknown_message_id_ends_the_chunk :
  let chunk := (Demo.dumps (JObj Demo.response_unknown) ++ String newline Demo.line_x)%string in
  let delivered :=
    [CallSubscriber 1%nat (JStr "s") (JStr "channel") [("x", JInt 1)];
     CallSubscriber 3%nat (JStr "s") (JStr "channel") [("x", JInt 1)];
     CallSubscriber 1%nat (JStr "s") (JStr "channel") [("x", JInt 1)]] in
  invoked (exec (check Demo.py 0 (RecvText Demo.line_x)) Demo.client0) = delivered ∧
  invoked (exec (check Demo.py 0 (RecvText chunk)) Demo.client0) = [] ∧
  invoked (exec (asyncCheck Demo.py 0 (RecvText Demo.line_x)) Demo.client0) = delivered ∧
  invoked (exec (asyncCheck Demo.py 0 (RecvText chunk)) Demo.client0) = [] ∧
  console (exec (asyncCheck Demo.py 0 (RecvText chunk)) Demo.client0)
    = ["[me]: Error in check: 'no-such-call'"%string].
Proof. vm_compute. repeat split. Qed.

(** ** Responses and their deadline *)

Section Response.
Context (H : host).

Lemma lookup_call_state (v : value) (s : client) :
  snd (lookup_call v s) = s.
Proof.
  unfold lookup_call, bind, lift, get.
  destruct (as_key v) as [[id|]|]; simpl; [|done..].
  by destruct (calls s !! id).
Qed.

(** The response branch either leaves the records alone or overwrites one
    whose deadline is still ahead. *)
Lemma receive_response_heap (now : Z) (event : dict) (s : client) :
  heap (exec (receive_response now event) s) = heap s ∨
  ∃ l q d q', heap s !! l = Some q ∧ p_expiration q = Some d ∧ now < d ∧
              heap (exec (receive_response now event) s) = <[l := q']> (heap s).
Proof.
  unfold exec, receive_response.
  destruct (dict_get "_MESSAGE_ID" event) as [id|] eqn:Hid.
  2:{ left. erewrite bind_raised; [done|]. unfold getitem. by rewrite Hid. }
  erewrite bind_ok by by apply getitem_ok.
  pose proof (lookup_call_state id s) as Hst.
  destruct (lookup_call id s) as [[l|e] s1] eqn:Hl; simpl in Hst; subst s1.
  2:{ left. by erewrite bind_raised. }
  erewrite bind_ok by done.
  destruct (heap s !! l) as [q|] eqn:Hq.
  2:{ left. erewrite bind_raised; [done|]. unfold deref, bind, get. by rewrite Hq. }
  erewrite bind_ok by by apply deref_ok.
  destruct (p_expiration q) as [d|] eqn:Hd; [|by left].
  destruct (d >? now) eqn:Hcmp.
  - apply Z.gtb_lt in Hcmp. right. exists l, q, d.
    unfold bind, store, modify. simpl.
    destruct (p_id q); simpl.
    + unfold delitem. destruct (dict_has "_MESSAGE_ID" event); simpl;
        eexists; (split; [done|]); (split; [done|]); (split; [done|]);
        rewrite ?insert_insert_eq; reflexivity.
    + eexists. (split; [done|]); (split; [done|]); (split; [done|]).
      rewrite ?insert_insert_eq; reflexivity.
  - left. unfold bind, lift. destruct (as_key id) as [[key|]|]; done.
Qed.

(** A response that comes before the deadline is attached: the record
    loses [expiration] and [_MESSAGE_ID] and gains the payload, itself
    without its [_MESSAGE_ID]. *)
Lemma dispatch_response_in_time (now : Z) (sender recipient : value) (event : dict)
    (id : string) (l : nat) (p : pending) (d : Z) (s : client) :
  service_entry (services s) event = Ok None →
  dict_get "_MESSAGE_ID" event = Some (JStr id) →
  calls s !! id = Some l → heap s !! l = Some p →
  p_expiration p = Some d → is_Some (p_id p) →
  now < d →
  dispatch H now sender recipient event s =
    (Ok tt, with_heap (<[l := Pending (p_handle p) None None
                                      (Some (dict_remove "_MESSAGE_ID" event))]> (heap s)) s).
Proof.
  intros Hsvc Hid Hcall Hheap Hexp [i Hi] Hlt.
  unfold dispatch. erewrite bind_ok by (rewrite find_service_eq, Hsvc; done).
  rewrite (dict_has_get _ _ _ Hid). unfold receive_response.
  erewrite bind_ok by by apply getitem_ok.
  erewrite bind_ok by (by rewrite lookup_call_str, Hcall).
  erewrite bind_ok by by apply deref_ok.
  rewrite Hexp. apply Z.gtb_lt in Hlt. rewrite Hlt, Hi.
  unfold bind, store, modify, delitem. simpl.
  rewrite (dict_has_get _ _ _ Hid). simpl.
  unfold with_heap. simpl. by rewrite !insert_insert_eq.
Qed.

(** A response that comes at the deadline or later removes the entry of
    [self.calls] and nothing else. *)
Lemma dispatch_response_late (now : Z) (sender recipient : value) (event : dict)
    (id : string) (l : nat) (p : pending) (d : Z) (s : client) :
  service_entry (services s) event = Ok None →
  dict_get "_MESSAGE_ID" event = Some (JStr id) →
  calls s !! id = Some l → heap s !! l = Some p →
  p_expiration p = Some d →
  d ≤ now →
  dispatch H now sender recipient event s =
    (Ok tt, with_calls (delete id (calls s)) s).
Proof.
  intros Hsvc Hid Hcall Hheap Hexp Hle.
  unfold dispatch. erewrite bind_ok by (rewrite find_service_eq, Hsvc; done).
  rewrite (dict_has_get _ _ _ Hid). unfold receive_response.
  erewrite bind_ok by by apply getitem_ok.
  erewrite bind_ok by (by rewrite lookup_call_str, Hcall).
  erewrite bind_ok by by apply deref_ok.
  rewrite Hexp.
  assert ((d >? now) = false) as -> by (rewrite Z.gtb_ltb; apply Z.ltb_ge; lia).
  reflexivity.
Qed.

(** Whatever the event, [receive] leaves the records alone or overwrites
    one whose deadline is still ahead. *)
Lemma receive_heap (now : Z) (event : dict) (s : client) :
  heap (exec (receive H now event) s) = heap s ∨
  ∃ l q d q', heap s !! l = Some q ∧ p_expiration q = Some d ∧ now < d ∧
              heap (exec (receive H now event) s) = <[l := q']> (heap s).
Proof.
  unfold exec. rewrite receive_head.
  destruct (dict_get "sender" event) as [sender|]; [|by left].
  destruct (dict_get "recipient" event) as [recipient|]; [|by left].
  destruct (dict_has "timestamp" event); [|by left].
  unfold dispatch.
  destruct (service_entry (services s) (cleaned event)) as [[service|]|e] eqn:Hsvc.
  - left. erewrite bind_ok by (rewrite find_service_eq, Hsvc; done).
    cbv beta iota.
    match goal with |- heap (snd (?m s)) = _ =>
      assert (keeps same_store m) as Hk by frame end.
    apply Hk.
  - erewrite bind_ok by (rewrite find_service_eq, Hsvc; done).
    destruct (dict_has "_MESSAGE_ID" (cleaned event)).
    + apply receive_response_heap.
    + left. cbv beta iota.
      match goal with |- heap (snd (?m s)) = _ =>
        assert (keeps same_store m) as Hk by frame end.
      apply Hk.
  - left. erewrite bind_raised by (rewrite find_service_eq, Hsvc; done). done.
Qed.

(** C2.  A response for a waiting call, processed at time [now]: before
    the deadline [d] the payload is attached to the record; at [d] or later
    the record stays as it was (no response in it) and its entry leaves
    [self.calls].  No user function is called either way.  And for any
    event in any state: a record that has no response before [receive] and
    has one after it had a deadline, and [now] was before it. *)
Theorem response_attached_only_before_deadline (now : Z) (event : dict) (id : string)
    (l : nat) (p : pending) (d : Z) (s : client) :
  is_response s event id →
  awaits s id l p d →
  (now < d →
     outcome (receive H now event) s = Ok tt ∧
     heap (exec (receive H now event) s) !! l =
       Some (Pending (p_handle p) None None
                     (Some (dict_remove "_MESSAGE_ID" (cleaned event)))) ∧
     calls (exec (receive H now event) s) = calls s ∧
     invoked (exec (receive H now event) s) = invoked s) ∧
  (d ≤ now →
     outcome (receive H now event) s = Ok tt ∧
     calls (exec (receive H now event) s) !! id = None ∧
     heap (exec (receive H now event) s) = heap s ∧
     invoked (exec (receive H now event) s) = invoked s) ∧
  (∀ now' event' s' l' q q',
     heap s' !! l' = Some q → p_response q = None →
     heap (exec (receive H now' event') s') !! l' = Some q' →
     is_Some (p_response q') →
     ∃ d', p_expiration q = Some d' ∧ now' < d').
Proof.
  intros (Hs & Hr & Ht & Hsvc & Hid) (Hcall & Hheap & Hexp & Hpid & Hresp).
  assert (dict_get "_MESSAGE_ID" (cleaned event) = Some (JStr id)) as Hid'
    by (by rewrite cleaned_other).
  unfold dict_has in Hs, Hr.
  destruct (dict_get "sender" event) as [sender|] eqn:Hs'; [|done].
  destruct (dict_get "recipient" event) as [recipient|] eqn:Hr'; [|done].
  unfold outcome, exec.
  rewrite (receive_cleaned H now event sender recipient) by done.
  split; [|split].
  - intros Hlt.
    rewrite (dispatch_response_in_time now sender recipient _ id l p d) by done.
    simpl. by rewrite lookup_insert_eq.
  - intros Hle.
    rewrite (dispatch_response_late now sender recipient _ id l p d) by done.
    simpl. by rewrite lookup_delete_eq.
  - clear. intros now event s l q q' Hq Hnone Hq' Hsome.
    destruct (receive_heap now event s) as [Heq|(l0 & q0 & d0 & q0' & Hq0 & Hd0 & Hlt & Heq)];
      fold (exec (receive H now event) s) in Hq'; rewrite Heq in Hq'.
    + rewrite Hq in Hq'. injection Hq' as <-. rewrite Hnone in Hsome. by destruct Hsome.
    + destruct (decide (l0 = l)) as [->|Hne].
      * rewrite Hq in Hq0. injection Hq0 as <-. by exists d0.
      * rewrite lookup_insert_ne in Hq' by done.
        rewrite Hq in Hq'. injection Hq' as <-. rewrite Hnone in Hsome. by destruct Hsome.
Qed.

End Response.

Lemma response_attached_only_before_deadline_witness :
  is_response Demo.client1 Demo.response_ok Demo.call_id ∧
  awaits Demo.client1 Demo.call_id 0
         (Pending "add" (Some Demo.call_id) (Some 105) None) 105 ∧
  outcome (receive Demo.py 101 Demo.response_ok) Demo.client1 = Ok tt ∧
  heap (exec (receive Demo.py 101 Demo.response_ok) Demo.client1) !! 0%nat =
    Some (Pending "add" None None (Some [("sum", JInt 3)])) ∧
  calls (exec (receive Demo.py 106 Demo.response_ok) Demo.client1) !! Demo.call_id = None.
Proof.
  assert (is_response Demo.client1 Demo.response_ok Demo.call_id) as Hresp
    by (repeat split; reflexivity).
  assert (awaits Demo.client1 Demo.call_id 0
            (Pending "add" (Some Demo.call_id) (Some 105) None) 105) as Hwait
    by (repeat split; try reflexivity; eexists; reflexivity).
  split; [exact Hresp|]. split; [exact Hwait|].
  destruct (response_attached_only_before_deadline Demo.py 101 _ _ _ _ _ _ Hresp Hwait)
    as (Hin & _ & _).
  destruct (response_attached_only_before_deadline Demo.py 106 _ _ _ _ _ _ Hresp Hwait)
    as (_ & Hlate & _).
  destruct Hin as (Hok & Hheap & _); [lia|].
  destruct Hlate as (_ & Hgone & _); [lia|].
  split; [exact Hok|]. split; [exact Hheap | exact Hgone].
Defined.

(** ** Keep-alive lines *)

Section KeepAlive.
Context (H : host).

(** What [internalSend] does: one write, of the message and a newline;
    the client is disconnected when the write fails. *)
Lemma internalSend_effect (msg : string) (s : client) :
  ∃ ok,
    outcome (internalSend msg) s = Ok tt ∧
    sock_writes (sock (exec (internalSend msg) s))
      = sock_writes (sock s) ++ [((msg ++ String newline EmptyString)%string, ok)] ∧
    connected (exec (internalSend msg) s) = (connected s && ok)%bool ∧
    sock_closed (sock (exec (internalSend msg) s)) = sock_closed (sock s) ∧
    (sock_closed (sock s) = false → sock_faults (sock s) = [] → ok = true).
Proof.
  unfold outcome, exec, internalSend, sendall.
  destruct (sock_closed (sock s)) eqn:Hc; simpl.
  - exists false. rewrite andb_false_r. by repeat split.
  - destruct (sock_faults (sock s)) as [|[] later]; simpl.
    + exists true. rewrite andb_true_r. by repeat split.
    + exists false. rewrite andb_false_r. by repeat split.
    + exists true. rewrite andb_true_r. by repeat split.
Qed.

Lemma str_split_empty (line : string) :
  line ∈ str_split newline EmptyString → line = EmptyString.
Proof. simpl. intros Hin. by apply list_elem_of_singleton in Hin. Qed.

Lemma internalSend_dot (s : client) : answers_keep_alive_only (internalSend ".") s.
Proof.
  destruct (internalSend_effect "." s) as (ok & Hout & Hw & _ & _ & Hok).
  split; [done|]. split; [apply internalSend_quiet|].
  exists ok. split; [|done].
  unfold new_writes. rewrite Hw. by rewrite drop_app_length.
Qed.

Lemma for_each_app {A} (body : A → M unit) (xs ys : list A) (s : client) :
  for_each body (xs ++ ys) s = (for_each body xs ;; for_each body ys) s.
Proof.
  revert s. induction xs as [|x xs IH]; intros s; [done|].
  cbn [app for_each]. unfold bind.
  destruct (body x s) as [[[]|e] s1]; [|done]. by rewrite IH.
Qed.

(** The loop over a chunk, cut at one of its lines: when the lines before
    it returned, the line is handled next, then the lines after it. *)
Lemma for_each_reaches {A} (body : A → M unit) (before after : list A) (x : A)
    (s s1 : client) :
  for_each body before s = (Ok tt, s1) →
  body x s1 = (Ok tt, exec (body x) s1) →
  for_each body (before ++ x :: after) s = for_each body after (exec (body x) s1).
Proof.
  intros Hbefore Hx. rewrite for_each_app.
  rewrite (bind_ok _ _ _ _ _ Hbefore). cbn [for_each].
  by rewrite (bind_ok _ _ _ _ _ Hx).
Qed.

Lemma sock_recv_text (data : string) (s : client) :
  sock_closed (sock s) = false → sock_recv (RecvText data) s = (Ok data, s).
Proof. intros Ho. unfold sock_recv, bind, get. by rewrite Ho. Qed.

(** [asyncCheck] is its body under its [except] clauses. *)
Lemma asyncCheck_handlers (now : Z) (data : string) (s : client) :
  sock_closed (sock s) = false →
  Nat.eqb (String.length data) 0 = false →
  asyncCheck H now (RecvText data) s
    = async_handlers H (for_each (asyncCheck_line H now) (str_split newline data) s).
Proof.
  intros Ho Hlen. unfold asyncCheck. cbv zeta.
  rewrite (bind_ok _ _ _ _ _ (sock_recv_text data s Ho)). rewrite Hlen.
  unfold async_handlers.
  by destruct (for_each (asyncCheck_line H now) (str_split newline data) s) as [[[]|[]] s'].
Qed.

(** C6, as the code has it.  A line that starts with [ping] or with [.]
    makes the loop body of [check], and that of [asyncCheck], send the reply
    [.] and do nothing else, in any state: no subscriber and no responder
    is called, no registry and no call record changes.  And [check] and
    [asyncCheck] do reach the line, on an open socket, when the lines
    before it in the chunk were handled without an exception: the reply is
    then written in the state those lines left, before any line after it is
    looked at. *)
Theorem keep_alive_answered_not_dispatched (now : Z) (data line : string)
    (before after : list string) (s : client) :
  sock_closed (sock s) = false →
  str_split newline data = before ++ line :: after →
  is_keep_alive line = true →
  (∀ s0, answers_keep_alive_only (check_line H now data line) s0 ∧
         answers_keep_alive_only (asyncCheck_line H now line) s0) ∧
  (∀ s1, for_each (check_line H now data) before s = (Ok tt, s1) →
     check H now (RecvText data) s
       = (Ok tt, exec (for_each (check_line H now data) after)
                      (exec (check_line H now data line) s1))) ∧
  (∀ s1, for_each (asyncCheck_line H now) before s = (Ok tt, s1) →
     asyncCheck H now (RecvText data) s
       = async_handlers H (for_each (asyncCheck_line H now) after
                             (exec (asyncCheck_line H now line) s1))).
Proof.
  intros Ho Hsplit Hka.
  assert (line ∈ str_split newline data) as Hin
    by (rewrite Hsplit; apply elem_of_app; right; by left).
  assert (Nat.eqb (String.length data) 0 = false) as Hlen.
  { destruct data; [|done]. apply str_split_empty in Hin. by subst line. }
  assert (∀ s0, check_line H now data line s0 = internalSend "." s0) as Hcl
    by (intros s0; unfold check_line; by rewrite Hlen, Hka).
  assert (∀ s0, asyncCheck_line H now line s0 = internalSend "." s0) as Hal
    by (intros s0; unfold asyncCheck_line; by rewrite Hka).
  assert (∀ (m : M unit) s0, m s0 = internalSend "." s0 →
            answers_keep_alive_only m s0 ∧ m s0 = (Ok tt, exec m s0)) as Hdot.
  { intros m s0 Hm. pose proof (internalSend_dot s0) as Hd.
    unfold answers_keep_alive_only, outcome, exec in *. rewrite Hm.
    split; [exact Hd|]. destruct Hd as [Hout _].
    destruct (internalSend "." s0) as [r s']. simpl in *. by subst r. }
  split; [|split].
  - intros s0. split; [apply (Hdot _ s0 (Hcl s0)) | apply (Hdot _ s0 (Hal s0))].
  - intros s1 Hbefore. unfold check, try_pass.
    rewrite (bind_ok _ _ _ _ _ (sock_recv_text data s Ho)). rewrite Hsplit.
    by rewrite (for_each_reaches _ before after line s s1 Hbefore
                  (proj2 (Hdot _ s1 (Hcl s1)))).
  - intros s1 Hbefore. rewrite asyncCheck_handlers by done. rewrite Hsplit.
    by rewrite (for_each_reaches _ before after line s s1 Hbefore
                  (proj2 (Hdot _ s1 (Hal s1)))).
Qed.

End KeepAlive.

Lemma keep_alive_answered_not_dispatched_witness :
  let chunk := (Demo.line_x +:+ String newline "ping")%string in
  let s1 := exec (for_each (check_line Demo.py 0 chunk) [Demo.line_x]) Demo.client0 in
  sock_closed (sock Demo.client0) = false ∧
  str_split newline chunk = [Demo.line_x] ++ "ping"%string :: [] ∧
  is_keep_alive "ping" = true ∧
  for_each (check_line Demo.py 0 chunk) [Demo.line_x] Demo.client0 = (Ok tt, s1) ∧
  check Demo.py 0 (RecvText chunk) Demo.client0
    = (Ok tt, exec (for_each (check_line Demo.py 0 chunk) [])
                   (exec (check_line Demo.py 0 chunk "ping") s1)) ∧
  sock_writes (sock (exec (check Demo.py 0 (RecvText chunk)) Demo.client0))
    = [(String "." (String newline EmptyString), true)].
Proof.
  cbv zeta.
  assert (str_split newline (Demo.line_x +:+ String newline "ping")
          = [Demo.line_x] ++ "ping"%string :: []) as Hsplit by (vm_compute; reflexivity).
  assert (for_each (check_line Demo.py 0 (Demo.line_x +:+ String newline "ping"))
                   [Demo.line_x] Demo.client0
          = (Ok tt, exec (for_each (check_line Demo.py 0 (Demo.line_x +:+ String newline "ping"))
                                   [Demo.line_x]) Demo.client0)) as Hbefore
    by (vm_compute; reflexivity).
  split; [reflexivity|]. split; [exact Hsplit|]. split; [reflexivity|].
  split; [exact Hbefore|].
  destruct (keep_alive_answered_not_dispatched Demo.py 0
              (Demo.line_x +:+ String newline "ping") "ping" [Demo.line_x] [] Demo.client0
              eq_refl Hsplit eq_refl) as (_ & Hcheck & _).
  split; [exact (Hcheck _ Hbefore)|].
  vm_compute. reflexivity.
Defined.

(** C6 as stated fails.  A chunk of two lines, the second being [ping]:
    when the first line raises, here in its fourth subscriber, and as well
    when it is a response with an unknown [_MESSAGE_ID], [check] and
    [asyncCheck] never come to the second line and write nothing. *)
Lemma keep_alive_after_a_raising_line_is_not_answered :
  let chunk := (Demo.line_x +:+ String newline "ping")%string in
  let chunk' := (Demo.dumps (JObj Demo.response_unknown) +:+ String newline "ping")%string in
  str_split newline chunk = [Demo.line_x; "ping"%string] ∧
  str_split newline chunk' = [Demo.dumps (JObj Demo.response_unknown); "ping"%string] ∧
  is_keep_alive "ping" = true ∧
  new_writes Demo.client_boom (exec (check Demo.py 0 (RecvText chunk)) Demo.client_boom) = [] ∧
  new_writes Demo.client_boom (exec (asyncCheck Demo.py 0 (RecvText chunk)) Demo.client_boom) = [] ∧
  new_writes Demo.client0 (exec (check Demo.py 0 (RecvText chunk')) Demo.client0) = [] ∧
  new_writes Demo.client0 (exec (asyncCheck Demo.py 0 (RecvText chunk')) Demo.client0) = [].
Proof. vm_compute. repeat split. Qed.

(** ** The end of a connection *)

Section Terminal.
Context (H : host).

(** On a closed socket [check] does nothing at all. *)
Lemma check_closed (now : Z) (r : recv_result) (s : client) :
  sock_closed (sock s) = true → check H now r s = (Ok tt, s).
Proof.
  intros Hc. unfold check, try_pass.
  assert (sock_recv r s = (Raised (OSError 9), s)) as Hrecv
    by (unfold sock_recv, bind, get; by rewrite Hc).
  by rewrite (bind_raised _ _ _ _ _ Hrecv).
Qed.

(** On a closed socket [asyncCheck] logs the error of the read. *)
Lemma asyncCheck_closed (now : Z) (r : recv_result) (s : client) :
  sock_closed (sock s) = true →
  asyncCheck H now r s = log ("Error in check: " ++ exn_str H (OSError 9)) s.
Proof.
  intros Hc. unfold asyncCheck. cbv zeta.
  assert (sock_recv r s = (Raised (OSError 9), s)) as Hrecv
    by (unfold sock_recv, bind, get; by rewrite Hc).
  by rewrite (bind_raised _ _ _ _ _ Hrecv).
Qed.

Lemma step_dead (o : op) (s : client) : stays_dead s (step H o s).
Proof.
  destruct o; simpl; unfold exec.
  - intros Hc Hd. by rewrite check_closed.
  - intros Hc Hd. by rewrite asyncCheck_closed.
  - apply send_dead.
  - assert (keeps stays_dead (call H now rnd channelName callName data timeout)) as Hk
      by (unfold call, alloc, store; frame).
    apply Hk.
  - assert (keeps stays_dead (register channelName callName cb)) as Hk
      by (unfold register; frame).
    apply Hk.
  - assert (keeps stays_dead (subscribe channelName f)) as Hk
      by (unfold subscribe; frame).
    apply Hk.
  - assert (keeps stays_dead (unsubscribe channelName)) as Hk
      by (unfold unsubscribe; frame).
    apply Hk.
  - assert (keeps stays_dead stop) as Hk by (unfold stop; frame).
    apply Hk.
Qed.

Lemma run_dead (ops : list op) (s : client) : stays_dead s (run H ops s).
Proof.
  revert s. induction ops as [|o ops IH]; intros s; simpl.
  - reflexivity.
  - etrans; [apply step_dead | apply IH].
Qed.

(** A read of zero bytes closes the socket and disconnects, without a call
    of a user function. *)
Lemma check_zero_bytes (now : Z) (s : client) :
  sock_closed (sock s) = false →
  check H now (RecvText "") s =
    (Ok tt, with_connected false
              (with_sock (Socket true (sock_faults (sock s)) (sock_writes (sock s))) s)).
Proof.
  intros Ho. unfold check, try_pass.
  assert (sock_recv (RecvText "") s = (Ok EmptyString, s)) as Hrecv
    by (unfold sock_recv, bind, get; by rewrite Ho).
  by rewrite (bind_ok _ _ _ _ _ Hrecv).
Qed.

Lemma asyncCheck_zero_bytes (now : Z) (s : client) :
  sock_closed (sock s) = false →
  asyncCheck H now (RecvText "") s =
    (Ok tt, with_connected false
              (with_sock (Socket true (sock_faults (sock s)) (sock_writes (sock s))) s)).
Proof.
  intros Ho. unfold asyncCheck. cbv zeta.
  assert (sock_recv (RecvText "") s = (Ok EmptyString, s)) as Hrecv
    by (unfold sock_recv, bind, get; by rewrite Ho).
  by rewrite (bind_ok _ _ _ _ _ Hrecv).
Qed.

(** C7.  On a connected client whose socket is open, a receive step
    ([check] or [asyncCheck]) that reads zero bytes closes the socket and
    sets the client disconnected; no user function is called in that step,
    nor in any later operation on the client, receive steps included. *)
Theorem zero_length_read_is_terminal (now : Z) (s : client) :
  connected s = true →
  sock_closed (sock s) = false →
  ends_connection H (check H now (RecvText "")) s ∧
  ends_connection H (asyncCheck H now (RecvText "")) s.
Proof.
  intros Hconn Hopen.
  assert (∀ m, m s = (Ok tt, with_connected false
              (with_sock (Socket true (sock_faults (sock s)) (sock_writes (sock s))) s)) →
            ends_connection H m s) as Hend.
  { intros m Hm. unfold ends_connection, exec. rewrite Hm. simpl.
    split; [done|]. split; [done|]. split; [done|]. split; [by repeat split|].
    intros ops.
    by destruct (run_dead ops (with_connected false
              (with_sock (Socket true (sock_faults (sock s)) (sock_writes (sock s))) s)))
      as (? & ? & ?). }
  split; apply Hend.
  - by apply check_zero_bytes.
  - by apply asyncCheck_zero_bytes.
Qed.

End Terminal.

Lemma zero_length_read_is_terminal_witness :
  connected Demo.client0 = true ∧ sock_closed (sock Demo.client0) = false ∧
  ends_connection Demo.py (check Demo.py 0 (RecvText "")) Demo.client0 ∧
  ends_connection Demo.py (asyncCheck Demo.py 0 (RecvText "")) Demo.client0.
Proof.
  split; [reflexivity|]. split; [reflexivity|].
  exact (zero_length_read_is_terminal Demo.py 0 Demo.client0 eq_refl eq_refl).
Defined.

(** ** Plain broadcasts *)

Section Broadcast.
Context (H : host).

(** A plain broadcast is handed to [receiveChannelEvent], cleaned. *)
Lemma receive_broadcast (now : Z) (event : dict) (sender recipient : value) (s : client) :
  is_broadcast s event sender recipient →
  receive H now event s =
    (receiveChannelEvent H sender recipient (cleaned event) ;; ret tt) s.
Proof.
  intros (Hs & Hr & Ht & Hsvc & Hid).
  rewrite (receive_cleaned H now event sender recipient) by done.
  unfold dispatch. erewrite bind_ok by (rewrite find_service_eq, Hsvc; done).
  cbv beta iota.
  assert (dict_has "_MESSAGE_ID" (cleaned event) = false) as ->; [|done].
  unfold dict_has. rewrite cleaned_other by done. by apply dict_has_false in Hid as ->.
Qed.

Lemma receiveChannelEvent_subscribed (sender : value) (channel : string)
    (event : dict) (xs : list callback) (s : client) :
  receivers s !! channel = Some (Some xs) →
  receiveChannelEvent H sender (JStr channel) event s =
    call_subscribers H xs sender (JStr channel) event s.
Proof.
  intros Hxs. unfold receiveChannelEvent, bind, lift, get. simpl. by rewrite Hxs.
Qed.

(** The callbacks [receiveChannelEvent] goes through are those of the
    channel, none when the channel has no entry or an entry without list. *)
Lemma receiveChannelEvent_subscribers (sender : value) (channel : string)
    (event : dict) (s : client) :
  receiveChannelEvent H sender (JStr channel) event s =
    call_subscribers H (subscribers_of s channel) sender (JStr channel) event s.
Proof.
  unfold receiveChannelEvent, subscribers_of, bind, lift, get. simpl.
  by destruct (receivers s !! channel) as [[xs|]|].
Qed.

End Broadcast.

(** ** Construction *)

Section Construction.
Context (H : host).

Lemma init_quiet (srv : server) : keeps quiet (init srv).
Proof. unfold init. frame. Qed.

(** The constructor does return when the server answers the greeting: the
    loop over the placeholders ends within the fuel it is given, and [init]
    sets [connected]. *)

Lemma count_char_append (c : ascii) (s1 s2 : string) :
  count_char c (s1 +:+ s2) = (count_char c s1 + count_char c s2)%nat.
Proof. induction s1 as [|c' s1 IH]; simpl; [done|]. rewrite IH. lia. Qed.

Lemma count_char_length (c : ascii) (s : string) :
  (count_char c s ≤ String.length s)%nat.
Proof. induction s as [|c' s IH]; simpl; [done|]. destruct (Ascii.eqb c c'); lia. Qed.

Lemma contains_count (c : ascii) (s : string) :
  contains c s = false → count_char c s = 0%nat.
Proof.
  induction s as [|c' s IH]; simpl; [done|].
  destruct (Ascii.eqb c c'); simpl; [done | exact IH].
Qed.

Lemma replace_first_count (c : ascii) (by_ s : string) :
  contains c s = true → count_char c by_ = 0%nat →
  S (count_char c (replace_first c by_ s)) = count_char c s.
Proof.
  intros Hin Hby. induction s as [|c' s IH]; simpl in *; [done|].
  destruct (Ascii.eqb c c') eqn:Hc; simpl in *.
  - rewrite count_char_append, Hby. done.
  - rewrite Hc. simpl. by apply IH.
Qed.

Lemma digit_has_no_hash (n : nat) : count_char "#" (str_of_digit (n mod 10)) = 0%nat.
Proof.
  pose proof (Nat.mod_upper_bound n 10 ltac:(done)) as Hlt.
  destruct (n mod 10)%nat as [|[|[|[|[|[|[|[|[|[|d]]]]]]]]]]; try reflexivity. lia.
Qed.

Lemma fill_placeholders_total (rnd : nat → nat) (fuel i : nat) (handle : string) :
  (count_char "#" handle ≤ fuel)%nat →
  is_Some (fill_placeholders fuel rnd i handle).
Proof.
  revert i handle. induction fuel as [|fuel IH]; intros i handle Hfuel; cbn [fill_placeholders].
  - destruct (contains "#" handle) eqn:Hin; [|by eexists].
    pose proof (replace_first_count "#" (str_of_digit (rnd i mod 10)) handle Hin
                  (digit_has_no_hash (rnd i))). lia.
  - destruct (contains "#" handle) eqn:Hin; [|by eexists].
    apply IH.
    pose proof (replace_first_count "#" (str_of_digit (rnd i mod 10)) handle Hin
                  (digit_has_no_hash (rnd i))). lia.
Qed.

Lemma for_each_internalSend (prefix : string) (xs : list string) (s : client) :
  for_each (λ x, internalSend (prefix +:+ x)) xs s
  = (Ok tt, exec (for_each (λ x, internalSend (prefix +:+ x)) xs) s).
Proof.
  unfold exec. revert s. induction xs as [|x xs IH]; intros s; simpl; [done|].
  unfold bind, internalSend at 1 3.
  destruct (sendall _ (sock s)) as [[] sk]; by rewrite IH.
Qed.

Lemma internalSend_returns (msg : string) (s : client) :
  internalSend msg s = (Ok tt, exec (internalSend msg) s).
Proof. unfold exec, internalSend. by destruct (sendall _ _) as [[] ?]. Qed.

Lemma internalSend_open (msg : string) (s : client) :
  sock_closed (sock (exec (internalSend msg) s)) = sock_closed (sock s).
Proof. by destruct (internalSend_effect msg s) as (ok & _ & _ & _ & ? & _). Qed.

(** With a server that accepts the connection and greets with a line that
    starts with [{], [init] ends connected. *)
Lemma init_connects (srv : server) (data : string) (s : client) :
  connect_ok srv = true → greeting srv = RecvText data → startswith "{" data = true →
  connected (exec (init srv) s) = true.
Proof.
  intros Hconn Hgreet Hjson. unfold exec, init, try_pass. cbn [snd].
  unfold bind at 1. cbn [modify]. rewrite Hconn.
  unfold bind at 1. cbn [ret]. unfold bind at 1. cbn [get].
  erewrite bind_ok by apply internalSend_returns.
  set (s1 := exec (internalSend _) _).
  assert (sock_closed (sock s1) = false) as Hopen by (unfold s1; by rewrite internalSend_open).
  assert (attempt (sock_recv (greeting srv)) s1 = (Ok (Some data), s1)) as Hrecv.
  { unfold attempt, sock_recv, bind, get. by rewrite Hopen, Hgreet. }
  rewrite (bind_ok _ _ _ _ _ Hrecv). rewrite Hjson.
  unfold bind at 1. cbn [log modify]. unfold bind at 1. cbn [get].
  erewrite bind_ok by apply for_each_internalSend.
  reflexivity.
Qed.

Lemma OOCSI_connects (h : option string) (host_name : string) (port : Z)
    (cb : callback) (rnd : nat → nat) (srv : server) (data : string) :
  connect_ok srv = true → greeting srv = RecvText data → startswith "{" data = true →
  is_Some (OOCSI H h host_name port cb rnd srv).
Proof.
  intros Hconn Hgreet Hjson. unfold OOCSI.
  match goal with |- context [fill_placeholders ?n rnd 0 ?x] =>
    destruct (fill_placeholders_total rnd n 0 x (count_char_length _ _)) as [name ->]
  end.
  cbv zeta.
  match goal with |- context [exec ?m ?s0] =>
    assert (connected (exec m s0) = true) as ->; [|by eexists]
  end.
  unfold exec. erewrite bind_ok by reflexivity.
  apply (init_connects srv data _ Hconn Hgreet Hjson).
Qed.

(** The registry of a constructed client: one entry, for its handle. *)
Lemma OOCSI_registry (h : option string) (host_name : string) (port : Z)
    (cb : callback) (rnd : nat → nat) (srv : server) (s : client) :
  OOCSI H h host_name port cb rnd srv = Some s →
  receivers s = {[ handle s := Some [cb] ]}.
Proof.
  unfold OOCSI. intros Hnew.
  destruct (fill_placeholders _ rnd 0 _) as [name|]; [|done].
  cbv zeta in Hnew.
  match type of Hnew with
  | (if connected (exec ?m ?s0) then _ else _) = _ =>
      assert (keeps quiet m) as Hq by (frame; apply init_quiet);
      destruct (Hq s0) as (Hh & Hrecv & _);
      fold (exec m s0) in Hh, Hrecv;
      destruct (connected (exec m s0)); [|done]
  end.
  injection Hnew as <-. by rewrite Hrecv, Hh.
Qed.

(** C9.  A constructed client has, for its own handle, the one-element list
    with the constructor's [callback] argument, [None] included; and with
    [None] there a plain broadcast addressed to the handle makes [receive]
    raise [TypeError] (calling [None]) rather than skip the entry.  No
    user function was called and the client is as before. *)
Theorem own_channel_holds_constructor_callback (h : option string) (host_name : string)
    (port : Z) (cb : callback) (rnd : nat → nat) (srv : server) (s : client) :
  OOCSI H h host_name port cb rnd srv = Some s →
  receivers s !! handle s = Some (Some [cb]) ∧
  (cb = None →
   ∀ now event sender,
     is_broadcast s event sender (JStr (handle s)) →
     receive H now event s = (Raised not_callable, s)).
Proof.
  intros Hnew. apply OOCSI_registry in Hnew.
  assert (receivers s !! handle s = Some (Some [cb])) as Hentry
    by (rewrite Hnew; apply lookup_singleton_eq).
  split; [exact Hentry|].
  intros -> now event sender Hb.
  rewrite (receive_broadcast H now event sender (JStr (handle s))) by done.
  apply bind_raised.
  by rewrite (receiveChannelEvent_subscribed H sender (handle s) _ [None]).
Qed.

End Construction.

Lemma own_channel_holds_constructor_callback_witness :
  ∃ s, OOCSI Demo.py (Some "me") "localhost" 4444 None (fun _ => 0%nat)
             (Server true (RecvText "{}") []) = Some s ∧
       receivers s !! handle s = Some (Some [None]) ∧
       is_broadcast s Demo.broadcast_me (JStr "s") (JStr (handle s)) ∧
       receive Demo.py 0 Demo.broadcast_me s = (Raised not_callable, s).
Proof.
  eexists. split; [reflexivity|].
  match goal with |- receivers ?s !! _ = _ ∧ _ =>
    pose proof (own_channel_holds_constructor_callback Demo.py (Some "me") "localhost"
                  4444 None (fun _ => 0%nat) (Server true (RecvText "{}") []) s eq_refl)
      as [Hentry Hraise];
    assert (is_broadcast s Demo.broadcast_me (JStr "s") (JStr (handle s))) as Hb
      by (repeat split; reflexivity)
  end.
  split; [exact Hentry|]. split; [exact Hb|].
  exact (Hraise eq_refl 0 Demo.broadcast_me (JStr "s") Hb).
Defined.

(** ** Subscribers of a channel *)

Section Subscribers.
Context (H : host).

(** Subscribers that return, whatever they do to the event: each is called
    once, in the order of the list. *)
Lemma call_subscribers_returning (fs : list fn) (sender recipient : value) :
  (∀ f e, f ∈ fs → ∃ e' r, run_subscriber H f sender recipient e = CbReturn e' r) →
  ∀ (event : dict) (s : client),
  ∃ event' tr,
    call_subscribers H (Some <$> fs) sender recipient event s
      = (Ok event', with_invoked (invoked s ++ tr) s) ∧
    inv_fn <$> tr = fs ∧ Forall (delivers sender recipient) tr ∧
    (∀ f rest, fs = f :: rest → head tr = Some (CallSubscriber f sender recipient event)).
Proof.
  induction fs as [|f fs IH]; intros Hret event s.
  - exists event, []. simpl. rewrite app_nil_r. by destruct s.
  - destruct (Hret f event) as (e1 & r & Hf); [by left|].
    destruct (IH (fun g e Hg => Hret g e (list_elem_of_further _ _ _ Hg)) e1
                 (with_invoked (invoked s ++ [CallSubscriber f sender recipient event]) s))
      as (e2 & tr & Hrun & Hfn & Hall & _).
    exists e2, (CallSubscriber f sender recipient event :: tr).
    split; [|split; [|split]].
    + cbn [fmap list_fmap call_subscribers call_subscriber].
      unfold bind at 1. unfold bind at 1. unfold modify at 1. rewrite Hf.
      unfold ret at 1. rewrite Hrun. simpl. by rewrite <- app_assoc.
    + rewrite fmap_cons. simpl. by rewrite Hfn.
    + constructor; [by eexists _, _ | done].
    + intros f' rest [= <- <-]. done.
Qed.

(** Subscribers that return and leave the event as it is. *)
Lemma call_subscribers_reading (fs : list fn) (sender recipient : value) (event : dict) :
  (∀ f, f ∈ fs → ∃ r, run_subscriber H f sender recipient event = CbReturn event r) →
  ∀ s : client,
    call_subscribers H (Some <$> fs) sender recipient event s
      = (Ok event,
         with_invoked (invoked s ++ ((λ f, CallSubscriber f sender recipient event) <$> fs)) s).
Proof.
  induction fs as [|f fs IH]; intros Hret s.
  - simpl. rewrite app_nil_r. by destruct s.
  - destruct (Hret f) as (r & Hf); [by left|].
    cbn [fmap list_fmap call_subscribers call_subscriber].
    unfold bind at 1. unfold bind at 1. unfold modify at 1. rewrite Hf.
    unfold ret at 1.
    rewrite IH by (intros g Hg; apply Hret; by right).
    simpl. by rewrite <- app_assoc.
Qed.

Lemma new_calls_with_invoked (s : client) (tr : list invocation) :
  new_calls s (with_invoked (invoked s ++ tr) s) = tr.
Proof. unfold new_calls. simpl. by rewrite drop_app_length. Qed.

(** [subscribe] appends to the list of the channel, or starts one. *)
Lemma subscribe_appends (channel : string) (f : callback) (xs : list callback) (s : client) :
  receivers s !! channel = Some (Some xs) →
  receivers (exec (subscribe channel f) s) = <[channel := Some (xs ++ [f])]> (receivers s).
Proof.
  intros Hxs.
  assert (keeps quiet (internalSend ("subscribe " +:+ channel) ;;
                       log ("subscribed to " +:+ channel))) as Hq by frame.
  unfold exec, subscribe. unfold bind at 1. simpl. rewrite Hxs.
  unfold bind at 1. simpl.
  match goal with |- receivers (snd (?m ?s0)) = _ => destruct (Hq s0) as (_ & -> & _) end.
  done.
Qed.

Lemma subscribe_new (channel : string) (f : callback) (s : client) :
  receivers s !! channel = None →
  receivers (exec (subscribe channel f) s) = <[channel := Some [f]]> (receivers s).
Proof.
  intros Hxs.
  assert (keeps quiet (internalSend ("subscribe " +:+ channel) ;;
                       log ("subscribed to " +:+ channel))) as Hq by frame.
  unfold exec, subscribe. unfold bind at 1. simpl. rewrite Hxs.
  unfold bind at 1. simpl.
  match goal with |- receivers (snd (?m ?s0)) = _ => destruct (Hq s0) as (_ & -> & _) end.
  done.
Qed.

(** C4.  Let the entry of [channel] hold the functions [fs], and let every
    one of them return when called.  Then a plain broadcast addressed to
    [channel] calls exactly [fs], each entry once, in the order of the
    list, each with the sender and the recipient of the event; the first
    gets the cleaned event, and when the functions leave the event as it
    is, all of them do.  A further [subscribe] puts its function at the
    end of the list, also when it is there already. *)
Theorem broadcast_calls_subscribers_in_order (now : Z) (event : dict) (sender : value)
    (channel : string) (fs : list fn) (s : client) :
  is_broadcast s event sender (JStr channel) →
  receivers s !! channel = Some (Some (Some <$> fs)) →
  (∀ f e, f ∈ fs → ∃ e' r, run_subscriber H f sender (JStr channel) e = CbReturn e' r) →
  outcome (receive H now event) s = Ok tt ∧
  same_store s (exec (receive H now event) s) ∧
  inv_fn <$> new_calls s (exec (receive H now event) s) = fs ∧
  Forall (delivers sender (JStr channel)) (new_calls s (exec (receive H now event) s)) ∧
  (∀ f rest, fs = f :: rest →
     head (new_calls s (exec (receive H now event) s))
       = Some (CallSubscriber f sender (JStr channel) (cleaned event))) ∧
  ((∀ f, f ∈ fs →
      ∃ r, run_subscriber H f sender (JStr channel) (cleaned event) = CbReturn (cleaned event) r) →
   new_calls s (exec (receive H now event) s)
     = (λ f, CallSubscriber f sender (JStr channel) (cleaned event)) <$> fs) ∧
  (∀ f, receivers (exec (subscribe channel (Some f)) s) !! channel
          = Some (Some (Some <$> (fs ++ [f])))).
Proof.
  intros Hb Hentry Hret.
  unfold outcome, exec.
  rewrite (receive_broadcast H now event sender (JStr channel)) by done.
  destruct (call_subscribers_returning fs sender (JStr channel) Hret (cleaned event) s)
    as (e' & tr & Hrun & Hfn & Hall & Hhead).
  assert ((receiveChannelEvent H sender (JStr channel) (cleaned event) ;; ret tt) s
          = (Ok tt, with_invoked (invoked s ++ tr) s)) as Hstep.
  { erewrite bind_ok; [done|].
    by rewrite (receiveChannelEvent_subscribed H sender channel _ (Some <$> fs)). }
  rewrite Hstep. cbn [fst snd]. rewrite new_calls_with_invoked.
  split; [done|]. split; [by repeat split|]. split; [done|]. split; [done|].
  split; [done|]. split.
  - intros Hread.
    pose proof (call_subscribers_reading fs sender (JStr channel) (cleaned event) Hread s) as Hrun'.
    rewrite Hrun in Hrun'. injection Hrun' as _ Hinv.
    by apply app_inv_head in Hinv.
  - intros f. fold (exec (subscribe channel (Some f)) s).
    rewrite (subscribe_appends channel (Some f) (Some <$> fs)) by done.
    rewrite lookup_insert_eq. by rewrite fmap_app.
Qed.

End Subscribers.

Lemma broadcast_calls_subscribers_in_order_witness :
  is_broadcast Demo.client0 Demo.broadcast_x (JStr "s") (JStr "channel") ∧
  receivers Demo.client0 !! "channel" = Some (Some (Some <$> [1; 3; 1]%nat)) ∧
  outcome (receive Demo.py 0 Demo.broadcast_x) Demo.client0 = Ok tt ∧
  inv_fn <$> new_calls Demo.client0 (exec (receive Demo.py 0 Demo.broadcast_x) Demo.client0)
    = [1; 3; 1]%nat.
Proof.
  assert (is_broadcast Demo.client0 Demo.broadcast_x (JStr "s") (JStr "channel")) as Hb
    by (repeat split; reflexivity).
  assert (receivers Demo.client0 !! "channel" = Some (Some (Some <$> [1; 3; 1]%nat))) as He
    by reflexivity.
  assert (∀ f e, f ∈ [1; 3; 1]%nat →
            ∃ e' r, run_subscriber Demo.py f (JStr "s") (JStr "channel") e = CbReturn e' r) as Hret.
  { intros f e Hf. exists e, JNull.
    repeat (apply elem_of_cons in Hf as [->|Hf]; [reflexivity|]).
    by apply elem_of_nil in Hf. }
  split; [exact Hb|]. split; [exact He|].
  destruct (broadcast_calls_subscribers_in_order Demo.py 0 Demo.broadcast_x (JStr "s")
              "channel" [1; 3; 1]%nat Demo.client0 Hb He Hret) as (Hok & _ & Hfn & _).
  split; [exact Hok | exact Hfn].
Defined.

(** ** A line from the wire to the subscribers *)

Section RoundTrip.
Context (H : host).

Lemma json_line_not_keep_alive (line : string) :
  startswith "{" line = true → is_keep_alive line = false.
Proof.
  destruct line as [|c rest]; [done|].
  unfold startswith, is_keep_alive. cbn -[ascii_dec].
  destruct (ascii_dec "{" c) as [<-|]; [|done].
  intros _. reflexivity.
Qed.

(** A JSON line of the chunk is parsed and handed to [receive], by [check]
    and by [asyncCheck] alike. *)
Lemma json_line_received (now : Z) (data line : string) (event : dict) (s : client) :
  line ∈ str_split newline data →
  startswith "{" line = true →
  json_loads H line = Some event →
  check_line H now data line s = receive H now event s ∧
  asyncCheck_line H now line s = receive H now event s.
Proof.
  intros Hin Hjson Hloads.
  assert (Nat.eqb (String.length data) 0 = false) as Hlen.
  { destruct data; [|done]. apply str_split_empty in Hin. by subst line. }
  unfold check_line, asyncCheck_line.
  rewrite Hlen, (json_line_not_keep_alive line Hjson), Hjson.
  unfold loads. rewrite Hloads. done.
Qed.

(** The calls [call_subscribers] makes are [deliveries], whatever the
    callbacks do. *)
Lemma call_subscribers_trace (xs : list callback) (sender recipient : value)
    (event : dict) (s : client) :
  ∃ r, call_subscribers H xs sender recipient event s
       = (r, with_invoked (invoked s ++ deliveries H xs sender recipient event) s).
Proof.
  revert event s. induction xs as [|[f|] xs IH]; intros event s.
  - exists (Ok event). simpl. rewrite app_nil_r. by destruct s.
  - cbn [call_subscribers call_subscriber deliveries].
    unfold bind at 1. unfold bind at 1. unfold modify at 1.
    destruct (run_subscriber H f sender recipient event) as [event' result|e].
    + unfold ret at 1.
      destruct (IH event' (with_invoked (invoked s ++ [CallSubscriber f sender recipient event]) s))
        as [r Hr].
      exists r. rewrite Hr. simpl. by rewrite <- app_assoc.
    + by exists (Raised e).
  - exists (Raised not_callable). simpl. rewrite app_nil_r. by destruct s.
Qed.

(** Functions that return are all called, in the order of the list; the
    first gets the event as it is handed in. *)
Lemma deliveries_returning (fs : list fn) (sender recipient : value) :
  (∀ f e, f ∈ fs → ∃ e' r, run_subscriber H f sender recipient e = CbReturn e' r) →
  ∀ event,
    inv_fn <$> deliveries H (Some <$> fs) sender recipient event = fs ∧
    Forall (delivers sender recipient) (deliveries H (Some <$> fs) sender recipient event).
Proof.
  induction fs as [|f fs IH]; intros Hret event; [by split|].
  destruct (Hret f event) as (e1 & r & Hf); [by left|].
  destruct (IH (fun g e Hg => Hret g e (list_elem_of_further _ _ _ Hg)) e1) as [Hfn Hall].
  rewrite fmap_cons. cbn [deliveries]. rewrite Hf. split.
  - rewrite fmap_cons. simpl. by rewrite Hfn.
  - constructor; [by eexists _, _ | done].
Qed.

(** Functions that return and do not write to the event all get it as it
    is handed in. *)
Lemma deliveries_reading (fs : list fn) (sender recipient : value) (event : dict) :
  (∀ f, f ∈ fs → ∃ r, run_subscriber H f sender recipient event = CbReturn event r) →
  deliveries H (Some <$> fs) sender recipient event
    = (λ f, CallSubscriber f sender recipient event) <$> fs.
Proof.
  induction fs as [|f fs IH]; intros Hret; [done|].
  destruct (Hret f) as (r & Hf); [by left|].
  rewrite !fmap_cons. cbn [deliveries]. rewrite Hf.
  by rewrite IH by (intros g Hg; apply Hret; by right).
Qed.

(** A plain broadcast for [channel]: the calls made are [deliveries] to
    the callbacks of [channel], and [receive] returns when these are
    functions that return. *)
Lemma receive_broadcast_trace (now : Z) (event : dict) (sender : value)
    (channel : string) (s : client) :
  is_broadcast s event sender (JStr channel) →
  ∃ r, receive H now event s
       = (r, with_invoked
               (invoked s ++ deliveries H (subscribers_of s channel) sender (JStr channel)
                               (cleaned event)) s) ∧
       (∀ fs, subscribers_of s channel = Some <$> fs →
          (∀ f e, f ∈ fs → ∃ e' r', run_subscriber H f sender (JStr channel) e = CbReturn e' r') →
          r = Ok tt).
Proof.
  intros Hb.
  rewrite (receive_broadcast H now event sender (JStr channel)) by done.
  destruct (call_subscribers_trace (subscribers_of s channel) sender (JStr channel)
              (cleaned event) s) as [r0 Hr0].
  unfold bind. rewrite receiveChannelEvent_subscribers, Hr0. destruct r0 as [e'|e].
  - exists (Ok tt). by split.
  - exists (Raised e). split; [done|]. intros fs Hfs Hret. rewrite Hfs in Hr0.
    destruct (call_subscribers_returning H fs sender (JStr channel) Hret (cleaned event) s)
      as (e' & tr & Hrun & _).
    rewrite Hrun in Hr0. discriminate.
Qed.

(** C5, as the code has it.  A line of the chunk that parses to a plain
    broadcast for [channel] is delivered, by the loop body of [check] and
    by that of [asyncCheck], as [(sender, channel, event)] with the one
    cleaned event dictionary: in it [sender], [recipient], [timestamp] and
    [data] are gone and every other key has its value, and for the event
    [{sender, recipient: channel, timestamp: 0, x: 1}] it is [{x: 1}].  The
    calls made are exactly [deliveries] to the callbacks of [channel],
    whatever these do: the first subscriber gets the cleaned event as it
    is, each later one gets the same dictionary as the earlier ones left
    it.  When the subscribers return, every one of them is called, once and
    in order; when they also leave the event alone, every one of them gets
    exactly the cleaned event. *)
Theorem broadcast_line_delivers_stripped_event (now : Z) (data line : string)
    (event : dict) (sender : value) (channel : string) (s : client) :
  line ∈ str_split newline data →
  startswith "{" line = true →
  json_loads H line = Some event →
  NoDup (map fst event) →
  is_broadcast s event sender (JStr channel) →
  new_calls s (exec (check_line H now data line) s)
    = deliveries H (subscribers_of s channel) sender (JStr channel) (cleaned event) ∧
  new_calls s (exec (asyncCheck_line H now line) s)
    = deliveries H (subscribers_of s channel) sender (JStr channel) (cleaned event) ∧
  (∀ f rest, subscribers_of s channel = Some f :: rest →
     head (deliveries H (subscribers_of s channel) sender (JStr channel) (cleaned event))
       = Some (CallSubscriber f sender (JStr channel) (cleaned event))) ∧
  (∀ fs, subscribers_of s channel = Some <$> fs →
     (∀ f e, f ∈ fs → ∃ e' r, run_subscriber H f sender (JStr channel) e = CbReturn e' r) →
     outcome (check_line H now data line) s = Ok tt ∧
     outcome (asyncCheck_line H now line) s = Ok tt ∧
     inv_fn <$> deliveries H (subscribers_of s channel) sender (JStr channel) (cleaned event)
       = fs ∧
     Forall (delivers sender (JStr channel))
            (deliveries H (subscribers_of s channel) sender (JStr channel) (cleaned event))) ∧
  (∀ fs, subscribers_of s channel = Some <$> fs →
     (∀ f, f ∈ fs →
        ∃ r, run_subscriber H f sender (JStr channel) (cleaned event) = CbReturn (cleaned event) r) →
     deliveries H (subscribers_of s channel) sender (JStr channel) (cleaned event)
       = (λ f, CallSubscriber f sender (JStr channel) (cleaned event)) <$> fs) ∧
  (∀ k, k ∈ ["sender"; "recipient"; "timestamp"; "data"]%string →
        dict_get k (cleaned event) = None) ∧
  (∀ k, k ∉ ["sender"; "recipient"; "timestamp"; "data"]%string →
        dict_get k (cleaned event) = dict_get k event) ∧
  (event = [("sender", sender); ("recipient", JStr channel); ("timestamp", JInt 0);
            ("x", JInt 1)]%string →
   cleaned event = [("x"%string, JInt 1)]).
Proof.
  intros Hin Hjson Hloads Hnd Hb.
  destruct (json_line_received now data line event s Hin Hjson Hloads) as [Hc Ha].
  destruct (receive_broadcast_trace now event sender channel s Hb) as (r & Hrecv & Hok).
  unfold outcome, exec. rewrite Hc, Ha, Hrecv. cbn [fst snd].
  rewrite new_calls_with_invoked.
  split; [done|]. split; [done|]. split; [|split; [|split; [|split; [|split]]]].
  - intros f rest ->. done.
  - intros fs Hfs Hret. rewrite (Hok fs Hfs Hret). rewrite Hfs.
    destruct (deliveries_returning fs sender (JStr channel) Hret (cleaned event)) as [Hfn Hall].
    done.
  - intros fs -> Hread. by apply deliveries_reading.
  - intros k Hk. by apply cleaned_control.
  - intros k Hk. apply cleaned_other; intros ->; apply Hk; rewrite !elem_of_cons; auto.
  - intros ->. reflexivity.
Qed.

End RoundTrip.

Lemma broadcast_line_delivers_stripped_event_witness :
  Demo.line_x ∈ str_split newline Demo.line_x ∧
  json_loads Demo.py Demo.line_x = Some Demo.broadcast_x ∧
  is_broadcast Demo.client_w Demo.broadcast_x (JStr "s") (JStr "channel") ∧
  subscribers_of Demo.client_w "channel" = [Some 5; Some 3]%nat ∧
  new_calls Demo.client_w (exec (check_line Demo.py 0 Demo.line_x Demo.line_x) Demo.client_w)
    = [CallSubscriber 5%nat (JStr "s") (JStr "channel") [("x"%string, JInt 1)];
       CallSubscriber 3%nat (JStr "s") (JStr "channel")
                      [("x"%string, JInt 1); ("seen"%string, JBool true)]] ∧
  outcome (check_line Demo.py 0 Demo.line_x Demo.line_x) Demo.client_w = Ok tt.
Proof.
  assert (Demo.line_x ∈ str_split newline Demo.line_x) as Hin
    by (apply list_elem_of_singleton; reflexivity).
  assert (is_broadcast Demo.client_w Demo.broadcast_x (JStr "s") (JStr "channel")) as Hb
    by (repeat split; reflexivity).
  assert (NoDup (map fst Demo.broadcast_x)) as Hnd.
  { repeat (apply NoDup_cons; split;
            [rewrite ?elem_of_cons, elem_of_nil; intros Hk; intuition discriminate|]).
    apply NoDup_nil_2. }
  assert (∀ f e, f ∈ [5; 3]%nat →
            ∃ e' r, run_subscriber Demo.py f (JStr "s") (JStr "channel") e = CbReturn e' r)
    as Hret.
  { intros f e Hf. rewrite !elem_of_cons, elem_of_nil in Hf.
    destruct Hf as [->|[->|[]]]; by eexists _, _. }
  split; [exact Hin|]. split; [reflexivity|]. split; [exact Hb|]. split; [reflexivity|].
  destruct (broadcast_line_delivers_stripped_event Demo.py 0 Demo.line_x Demo.line_x
              Demo.broadcast_x (JStr "s") "channel" Demo.client_w
              Hin eq_refl eq_refl Hnd Hb) as (Hcalls & _ & _ & Hall & _).
  split; [rewrite Hcalls; reflexivity|].
  exact (proj1 (Hall [5; 3]%nat eq_refl Hret)).
Defined.

(** C5 as stated fails.  The spec's line, for a channel with two
    subscribers of which the first writes ["seen": true] into its event:
    [check], and [asyncCheck] as well, hand the second subscriber the same
    dictionary, with the key the first one wrote, and not [{x: 1}]. *)
Lemma later_subscriber_gets_event_as_earlier_left_it :
  Demo.line_x
    = "{" +:+ Demo.quoted "sender" +:+ ":" +:+ Demo.quoted "s" +:+ ","
          +:+ Demo.quoted "recipient" +:+ ":" +:+ Demo.quoted "channel" +:+ ","
          +:+ Demo.quoted "timestamp" +:+ ":0," +:+ Demo.quoted "x" +:+ ":1}" ∧
  subscribers_of Demo.client_w "channel" = [Some 5; Some 3]%nat ∧
  new_calls Demo.client_w (exec (check Demo.py 0 (RecvText Demo.line_x)) Demo.client_w)
    = [CallSubscriber 5%nat (JStr "s") (JStr "channel") [("x"%string, JInt 1)];
       CallSubscriber 3%nat (JStr "s") (JStr "channel")
                      [("x"%string, JInt 1); ("seen"%string, JBool true)]] ∧
  new_calls Demo.client_w (exec (asyncCheck Demo.py 0 (RecvText Demo.line_x)) Demo.client_w)
    = [CallSubscriber 5%nat (JStr "s") (JStr "channel") [("x"%string, JInt 1)];
       CallSubscriber 3%nat (JStr "s") (JStr "channel")
                      [("x"%string, JInt 1); ("seen"%string, JBool true)]].
Proof. vm_compute. repeat split. Qed.

(** ** Service calls *)

Section Service.
Context (H : host).

(** A service call, step by step, for a responder that returns. *)
Lemma receive_service_call (now : Z) (event : dict) (sender : value)
    (channel name : string) (f : fn) (answer : dict) (result : value) (s : client) :
  is_service_call s event sender channel name f →
  run_responder H f (dict_remove "_MESSAGE_HANDLE" (cleaned event)) = CbReturn answer result →
  receive H now event s =
    (send H sender answer ;;
     receiveChannelEvent H sender (JStr channel) answer ;;
     ret tt)
      (with_invoked
         (invoked s ++ [CallResponder f (dict_remove "_MESSAGE_HANDLE" (cleaned event))]) s).
Proof.
  intros (Hs & Hr & Ht & Hh & Hsvc) Hrun.
  rewrite (receive_cleaned H now event sender (JStr channel)) by done.
  assert (dict_get "_MESSAGE_HANDLE" (cleaned event) = Some (JStr name)) as Hh'
    by (by rewrite cleaned_other).
  assert (service_entry (services s) (cleaned event) = Ok (Some (Some f))) as Hentry
    by (unfold service_entry; rewrite Hh'; cbn [as_key]; f_equal; exact Hsvc).
  unfold dispatch.
  erewrite bind_ok by (rewrite find_service_eq, Hentry; done).
  cbv beta iota.
  erewrite bind_ok by (apply delitem_ok; by apply (dict_has_get _ _ (JStr name))).
  erewrite bind_ok; [reflexivity|].
  unfold call_responder, bind, modify. by rewrite Hrun.
Qed.

(** C3, as the code has it.  A call of a registered service whose
    responder [f] returns: [f] is called once, first, with the cleaned
    event less its [_MESSAGE_HANDLE] (a [_MESSAGE_ID] stays in it); then one
    message goes to the socket, [sendraw], the sender and the event
    dictionary as [f] left it ([answer]; what [f] returned is not looked
    at); then the callbacks of the recipient channel are gone through with
    that same dictionary, the calls being exactly [deliveries].  When these
    are functions that return, [receive] returns and every one of them is
    called, once and in order, the first with [answer] as it is; when they
    also leave the dictionary alone, every one of them gets [answer]. *)
Theorem service_call_publishes_event_as_left_by_responder (now : Z) (event : dict)
    (sender : value) (channel name : string) (f : fn) (answer : dict) (result : value)
    (s : client) :
  is_service_call s event sender channel name f →
  run_responder H f (dict_remove "_MESSAGE_HANDLE" (cleaned event)) = CbReturn answer result →
  same_store s (exec (receive H now event) s) ∧
  new_calls s (exec (receive H now event) s)
    = CallResponder f (dict_remove "_MESSAGE_HANDLE" (cleaned event))
      :: deliveries H (subscribers_of s channel) sender (JStr channel) answer ∧
  (∃ ok, new_writes s (exec (receive H now event) s)
         = [((("sendraw " ++ format_arg H sender ++ " " ++ json_dumps H answer)
               ++ String newline EmptyString)%string, ok)]) ∧
  dict_get "_MESSAGE_ID" (dict_remove "_MESSAGE_HANDLE" (cleaned event))
    = dict_get "_MESSAGE_ID" event ∧
  (∀ fs, subscribers_of s channel = Some <$> fs →
     (∀ g e, g ∈ fs → ∃ e' r, run_subscriber H g sender (JStr channel) e = CbReturn e' r) →
     outcome (receive H now event) s = Ok tt ∧
     inv_fn <$> deliveries H (subscribers_of s channel) sender (JStr channel) answer = fs ∧
     Forall (delivers sender (JStr channel))
            (deliveries H (subscribers_of s channel) sender (JStr channel) answer) ∧
     (∀ g rest, fs = g :: rest →
        head (deliveries H (subscribers_of s channel) sender (JStr channel) answer)
          = Some (CallSubscriber g sender (JStr channel) answer))) ∧
  (∀ fs, subscribers_of s channel = Some <$> fs →
     (∀ g, g ∈ fs → ∃ r, run_subscriber H g sender (JStr channel) answer = CbReturn answer r) →
     outcome (receive H now event) s = Ok tt ∧
     new_calls s (exec (receive H now event) s)
       = CallResponder f (dict_remove "_MESSAGE_HANDLE" (cleaned event))
         :: ((λ g, CallSubscriber g sender (JStr channel) answer) <$> fs)).
Proof.
  intros Hcall Hrun.
  unfold outcome, exec.
  rewrite (receive_service_call now event sender channel name f answer result) by done.
  set (s1 := with_invoked _ s).
  destruct (internalSend_effect
              ("sendraw " ++ format_arg H sender ++ " " ++ json_dumps H answer)%string s1)
    as (ok & Hout & Hw & _).
  pose proof (internalSend_quiet
                ("sendraw " ++ format_arg H sender ++ " " ++ json_dumps H answer)%string s1)
    as (Hq1 & Hq2 & Hq3 & Hq4 & Hq5 & Hq6).
  unfold outcome, exec in Hout, Hw.
  fold (send H sender answer) in Hout, Hw, Hq1, Hq2, Hq3, Hq4, Hq5, Hq6.
  destruct (send H sender answer s1) as [r2 s2] eqn:Hsend. simpl in *. subst r2.
  erewrite bind_ok by exact Hsend.
  assert (subscribers_of s2 channel = subscribers_of s channel) as Hsubs2
    by (unfold subscribers_of; by rewrite Hq2).
  destruct (call_subscribers_trace H (subscribers_of s channel) sender (JStr channel) answer s2)
    as [r Hr].
  assert (∀ fs, subscribers_of s channel = Some <$> fs →
            (∀ g e, g ∈ fs → ∃ e' r', run_subscriber H g sender (JStr channel) e = CbReturn e' r') →
            ∃ e', r = Ok e') as Hok.
  { intros fs Hfs Hret. rewrite Hfs in Hr.
    destruct (call_subscribers_returning H fs sender (JStr channel) Hret answer s2)
      as (e' & tr & Hrun' & _).
    rewrite Hrun' in Hr. injection Hr as <- _. by exists e'. }
  assert (∀ fs, subscribers_of s channel = Some <$> fs →
            (∀ g, g ∈ fs → ∃ r', run_subscriber H g sender (JStr channel) answer = CbReturn answer r') →
            ∃ e', r = Ok e') as Hok'.
  { intros fs Hfs Hread. rewrite Hfs in Hr.
    rewrite (call_subscribers_reading H fs sender (JStr channel) answer Hread s2) in Hr.
    injection Hr as <- _. by exists answer. }
  assert ((receiveChannelEvent H sender (JStr channel) answer ;; ret tt) s2
          = (match r with Ok _ => Ok tt | Raised e => Raised e end,
             with_invoked
               (invoked s2 ++ deliveries H (subscribers_of s channel) sender (JStr channel) answer)
               s2)) as Hfin.
  { unfold bind. rewrite receiveChannelEvent_subscribers, Hsubs2, Hr. by destruct r. }
  rewrite Hfin.
  assert (new_calls s (with_invoked
            (invoked s2 ++ deliveries H (subscribers_of s channel) sender (JStr channel) answer) s2)
          = CallResponder f (dict_remove "_MESSAGE_HANDLE" (cleaned event))
            :: deliveries H (subscribers_of s channel) sender (JStr channel) answer) as Hcalls.
  { unfold new_calls. simpl. rewrite Hq6. simpl.
    rewrite <- app_assoc. by rewrite drop_app_length. }
  assert (∃ ok0, new_writes s (with_invoked
            (invoked s2 ++ deliveries H (subscribers_of s channel) sender (JStr channel) answer) s2)
          = [((("sendraw " ++ format_arg H sender ++ " " ++ json_dumps H answer)
               ++ String newline EmptyString)%string, ok0)]) as Hwrites.
  { exists ok. unfold new_writes. simpl. rewrite Hw. simpl. by rewrite drop_app_length. }
  assert (same_store s (with_invoked
            (invoked s2 ++ deliveries H (subscribers_of s channel) sender (JStr channel) answer) s2))
    as Hstore by (repeat split; simpl; congruence).
  assert (dict_get "_MESSAGE_ID" (dict_remove "_MESSAGE_HANDLE" (cleaned event))
          = dict_get "_MESSAGE_ID" event) as Hid
    by (rewrite dict_get_remove_ne by done; by rewrite cleaned_other).
  clear Hfin. destruct r as [e'|e]; cbn [fst snd].
  - split; [done|]. split; [done|]. split; [done|]. split; [done|]. split.
    + intros fs Hfs Hret. rewrite Hfs.
      destruct (deliveries_returning H fs sender (JStr channel) Hret answer) as [Hfn Hall].
      split; [done|]. split; [done|]. split; [done|].
      intros g rest ->. cbn [fmap list_fmap deliveries head]. done.
    + intros fs Hfs Hread. split; [done|]. rewrite Hcalls, Hfs.
      by rewrite (deliveries_reading H fs sender (JStr channel) answer Hread).
  - split; [done|]. split; [done|]. split; [done|]. split; [done|]. split.
    + intros fs Hfs Hret. by destruct (Hok fs Hfs Hret) as [? [=]].
    + intros fs Hfs Hread. by destruct (Hok' fs Hfs Hread) as [? [=]].
Qed.

End Service.

Lemma service_call_publishes_event_as_left_by_responder_witness :
  is_service_call Demo.client_w_add1 Demo.service_call (JStr "alice") "channel" "add" 1%nat ∧
  run_responder Demo.py 1%nat (dict_remove "_MESSAGE_HANDLE" (cleaned Demo.service_call))
    = CbReturn [("_MESSAGE_ID", JStr "id-1"); ("x", JInt 1); ("answer", JInt 42)]%string JNull ∧
  new_calls Demo.client_w_add1 (exec (receive Demo.py 0 Demo.service_call) Demo.client_w_add1)
    = [CallResponder 1%nat [("_MESSAGE_ID", JStr "id-1"); ("x", JInt 1)]%string;
       CallSubscriber 5%nat (JStr "alice") (JStr "channel")
         [("_MESSAGE_ID", JStr "id-1"); ("x", JInt 1); ("answer", JInt 42)]%string;
       CallSubscriber 3%nat (JStr "alice") (JStr "channel")
         [("_MESSAGE_ID", JStr "id-1"); ("x", JInt 1); ("answer", JInt 42);
          ("seen", JBool true)]%string].
Proof.
  assert (is_service_call Demo.client_w_add1 Demo.service_call (JStr "alice") "channel" "add" 1%nat)
    as Hcall by (repeat split; reflexivity).
  split; [exact Hcall|]. split; [reflexivity|].
  destruct (service_call_publishes_event_as_left_by_responder Demo.py 0 Demo.service_call
              (JStr "alice") "channel" "add" 1%nat
              [("_MESSAGE_ID", JStr "id-1"); ("x", JInt 1); ("answer", JInt 42)]%string
              JNull Demo.client_w_add1 Hcall eq_refl)
    as (_ & Hcalls & _).
  rewrite Hcalls. reflexivity.
Defined.

(** C3 as stated fails.  Responder 2 leaves the event alone and returns
    the dictionary [{status: ok}]; the one message written for the call
    carries the event, not that dictionary. *)
Lemma service_call_does_not_publish_return_value :
  let s := Demo.client_add2 in
  let payload := dict_remove "_MESSAGE_HANDLE" (cleaned Demo.service_call) in
  let returned := [("status", JStr "ok")]%string in
  is_service_call s Demo.service_call (JStr "alice") "channel" "add" 2%nat ∧
  run_responder Demo.py 2%nat payload = CbReturn payload (JObj returned) ∧
  new_writes s (exec (receive Demo.py 0 Demo.service_call) s)
    = [(("sendraw alice " ++ json_dumps Demo.py payload ++ String newline EmptyString)%string,
        true)] ∧
  new_writes s (exec (receive Demo.py 0 Demo.service_call) s)
    ≠ [(("sendraw alice " ++ json_dumps Demo.py returned ++ String newline EmptyString)%string,
        true)].
Proof.
  cbv zeta. split; [by repeat split|]. split; [reflexivity|]. split; [reflexivity|].
  vm_compute. discriminate.
Qed.

(** ** [call] and the caller's dictionary *)

Section Call.
Context (H : host).

(** [send] returns. *)
Lemma send_returns (channelName : value) (data : dict) (s : client) :
  send H channelName data s = (Ok tt, exec (send H channelName data) s).
Proof. unfold exec, send, internalSend. by destruct (sendall _ _) as [[] ?]. Qed.

(** What [call] gives back: the caller's dictionary with the two stamps,
    and the new record, which is also the entry of [self.calls]. *)
Lemma call_run (now : Z) (rnd : nat → Z) (channelName callName : string)
    (data : dict) (timeout : Z) (s : client) :
  ∃ s',
    call H now rnd channelName callName data timeout s =
      (Ok (dict_set "_MESSAGE_ID" (JStr (uuid4 rnd))
             (dict_set "_MESSAGE_HANDLE" (JStr callName) data),
           fresh (dom (heap s))), s') ∧
    calls s' = <[uuid4 rnd := fresh (dom (heap s))]> (calls s) ∧
    heap s' = <[fresh (dom (heap s)) :=
                  Pending callName (Some (uuid4 rnd)) (Some (now + timeout)) None]> (heap s).
Proof.
  unfold call, alloc. cbv zeta.
  unfold bind at 1. unfold bind at 1. cbn [get].
  unfold bind at 1. cbn [store modify ret].
  unfold bind at 1. cbn [modify].
  set (s1 := with_calls _ _).
  set (data' := dict_set "_MESSAGE_ID" _ _).
  pose proof (send_quiet H (JStr channelName) data' s1) as (_ & _ & Hc & _ & Hh & _).
  erewrite bind_ok by apply send_returns.
  eexists. split; [reflexivity|]. unfold exec. by rewrite Hc, Hh.
Qed.

(** C8, as the code has it.  [call] returns, and the caller's dictionary
    then has [_MESSAGE_HANDLE] with the call name and [_MESSAGE_ID] with
    the generated id; every other key has the value it had (and is
    present or absent as before). *)
Theorem call_stamps_the_callers_dictionary (now : Z) (rnd : nat → Z)
    (channelName callName : string) (data : dict) (timeout : Z) (s : client) :
  ∃ data' l,
    outcome (call H now rnd channelName callName data timeout) s = Ok (data', l) ∧
    dict_get "_MESSAGE_HANDLE" data' = Some (JStr callName) ∧
    dict_get "_MESSAGE_ID" data' = Some (JStr (uuid4 rnd)) ∧
    (∀ k, k ≠ "_MESSAGE_HANDLE"%string → k ≠ "_MESSAGE_ID"%string →
          dict_get k data' = dict_get k data) ∧
    calls (exec (call H now rnd channelName callName data timeout) s) !! uuid4 rnd = Some l.
Proof.
  destruct (call_run now rnd channelName callName data timeout s) as (s' & Hrun & Hcalls & _).
  unfold outcome, exec. rewrite Hrun. cbn [fst snd].
  eexists _, _. split; [reflexivity|]. split; [|split; [|split]].
  - rewrite dict_get_set_ne by done. apply dict_get_set_eq.
  - apply dict_get_set_eq.
  - intros k Hk1 Hk2. by rewrite !dict_get_set_ne.
  - rewrite Hcalls. apply lookup_insert_eq.
Qed.

End Call.

(** C8 as stated fails.  A payload that already has a key [_MESSAGE_ID]
    does not keep the value of that key. *)
Lemma call_overwrites_message_id :
  let data := [("_MESSAGE_ID", JStr "mine"); ("x", JInt 1)]%string in
  ∃ data' l,
    outcome (call Demo.py 100 Demo.zero_rnd "srv" "add" data 5) Demo.client0 = Ok (data', l) ∧
    dict_get "_MESSAGE_ID" data = Some (JStr "mine") ∧
    dict_get "_MESSAGE_ID" data' = Some (JStr "00000000-0000-4000-8000-000000000000") ∧
    dict_get "_MESSAGE_ID" data' ≠ dict_get "_MESSAGE_ID" data.
Proof.
  cbv zeta. eexists _, _. split; [vm_compute; reflexivity|].
  split; [reflexivity|]. split; [reflexivity|]. discriminate.
Qed.
